(** * Authenticated-route decision logic of the Rail mobile client

    Shallow embedding of [utils/routeHelpers.ts] (the route config builder
    and the four-branch decision engine) and of the routing effect of
    [hooks/useProtectedRoute.ts], together with the properties the
    specification states about them.

    JavaScript values are modelled as the code has them: [string | null]
    is [option string], an optional field is an [option], and every
    condition of the source that tests a value for truthiness goes through
    [truthy]. *)

From stdpp Require Import base option list strings gmap.

Local Open Scope string_scope.

(** ** JavaScript truthiness *)

(** The source never compares its session fields with [null]; it writes
    [if (user)], [a && b], [!x], [a || b].  What such a test sees depends
    on the type of the value. *)
Class Truthy (A : Type) := truthy : A → bool.
Global Hint Mode Truthy ! : typeclass_instances.

(** A boolean is its own truth value. *)
#[global] Instance bool_truthy : Truthy bool := λ b, b.

(** A string is falsy exactly when it is empty. *)
#[global] Instance string_truthy : Truthy string :=
  λ s, match s with EmptyString => false | String _ _ => true end.

(** [null] and [undefined] are falsy; otherwise the payload decides. *)
#[global] Instance option_truthy `{Truthy A} : Truthy (option A) :=
  λ o, match o with Some a => truthy a | None => false end.

(** [a || b] on nullable values: the left operand when it is truthy, the
    right operand otherwise. *)
Definition js_or `{Truthy A} (a b : option A) : option A :=
  if truthy a then a else b.

(** [x === 'literal'] where [x] may be [null] or [undefined]. *)
Definition strict_eq (x : option string) (lit : string) : bool :=
  bool_decide (x = Some lit).

(** ** Data model *)

(** The string-literal unions of [interface User]. *)
Module KycStatus.
Inductive t := pending | processing | approved | rejected | expired.
End KycStatus.

Module OnboardingStatus.
Inductive t :=
  | pending | started | kyc_pending | kyc_processing | kyc_rejected
  | completed.

(** At run time a status is its string literal. *)
Definition literal (st : t) : string :=
  match st with
  | pending => "pending"
  | started => "started"
  | kyc_pending => "kyc_pending"
  | kyc_processing => "kyc_processing"
  | kyc_rejected => "kyc_rejected"
  | completed => "completed"
  end.
End OnboardingStatus.

(** [interface User] of the auth store; fields marked [?] are optional. *)
Module User.
Record t := mk {
  id : string;
  email : string;
  fullName : option string;
  phoneNumber : option string;
  emailVerified : bool;
  phoneVerified : option bool;
  kycStatus : option KycStatus.t;
  onboardingStatus : option OnboardingStatus.t;
  hasPasscode : option bool;
  createdAt : option string;
  updatedAt : option string;
}.
End User.

(** An object reference is always truthy. *)
#[global] Instance user_truthy : Truthy User.t := λ _, true.

(** The session snapshot handed to the decision engine.  The hook builds
    it from five fields of the auth store: [user : User | null],
    [isAuthenticated : boolean], [accessToken : string | null],
    [onboardingStatus : string | null] and
    [pendingVerificationEmail : string | null]. *)
Record AuthState := {
  user : option User.t;
  isAuthenticated : bool;
  accessToken : option string;
  onboardingStatus : option string;
  pendingVerificationEmail : option string;
}.

(** The booleans derived from the current location: the seven fields of
    the object literal [buildRouteConfig] returns. *)
Record RouteConfig := {
  inAuthGroup : bool;
  inTabsGroup : bool;
  isOnWelcomeScreen : bool;
  isOnLoginPasscode : bool;
  isOnVerifyEmail : bool;
  isOnCreatePasscode : bool;
  isOnConfirmPasscode : bool;
}.

(** ** Route config builder *)

(** [segments[0]] is [undefined] on an empty array, and [undefined]
    is strictly equal to no string literal. *)
Definition buildRouteConfig (segments : list string) (pathname : string)
  : RouteConfig :=
  {| inAuthGroup := strict_eq (segments !! 0) "(auth)";
     inTabsGroup := strict_eq (segments !! 0) "(tabs)";
     isOnWelcomeScreen := bool_decide (pathname = "/");
     isOnLoginPasscode := bool_decide (pathname = "/(auth)/login-passcode");
     isOnVerifyEmail := bool_decide (pathname = "/(auth)/verify-email");
     isOnCreatePasscode := bool_decide (pathname = "/(auth)/create-passcode");
     isOnConfirmPasscode :=
       bool_decide (pathname = "/(auth)/confirm-passcode") |}.

(** ** Route decision engine *)

Definition isInCriticalAuthFlow (config : RouteConfig) : bool :=
  isOnLoginPasscode config || isOnVerifyEmail config
  || isOnCreatePasscode config || isOnConfirmPasscode config.

(** [user?.onboardingStatus]: a string, or [undefined] when the user or
    the field is missing. *)
Definition user_onboardingStatus (u : option User.t) : option string :=
  OnboardingStatus.literal <$> (u ≫= User.onboardingStatus).

(** [user?.hasPasscode]. *)
Definition user_hasPasscode (u : option User.t) : option bool :=
  u ≫= User.hasPasscode.

Definition handleAuthenticatedUser (authState : AuthState)
    (config : RouteConfig) : option string :=
  if isInCriticalAuthFlow config then None
  else
    let userOnboardingStatus :=
      js_or (user_onboardingStatus (user authState))
            (onboardingStatus authState) in
    if strict_eq userOnboardingStatus "completed" && inTabsGroup config
    then None
    else if negb (inTabsGroup config) then Some "/(tabs)"
    else None.

Definition handleStoredCredentials (authState : AuthState)
    (config : RouteConfig) : option string :=
  if inAuthGroup config then None
  else
    let userHasPasscode := user_hasPasscode (user authState) in
    if truthy userHasPasscode && negb (isOnLoginPasscode config)
    then Some "/(auth)/login-passcode"
    else if negb (truthy userHasPasscode) && negb (isOnWelcomeScreen config)
    then Some "/(auth)/signin"
    else None.

Definition handleEmailVerification (config : RouteConfig) : option string :=
  if isOnVerifyEmail config then None
  else if negb (isOnVerifyEmail config) && negb (isOnWelcomeScreen config)
  then Some "/(auth)/verify-email"
  else None.

Definition handleGuestUser (hasSeenWelcome : bool) (config : RouteConfig)
  : option string :=
  if hasSeenWelcome && inAuthGroup config then None
  else if negb hasSeenWelcome && negb (isOnWelcomeScreen config)
  then Some "/"
  else if inTabsGroup config
          || (negb (inAuthGroup config) && negb (isOnWelcomeScreen config))
  then Some "/"
  else None.

Definition determineRoute (authState : AuthState) (config : RouteConfig)
    (hasSeenWelcome : bool) : option string :=
  let user := user authState in
  let isAuthenticated := isAuthenticated authState in
  let accessToken := accessToken authState in
  let pendingVerificationEmail := pendingVerificationEmail authState in
  if isAuthenticated && truthy user && truthy accessToken
  then handleAuthenticatedUser authState config
  else if negb isAuthenticated && truthy user
  then handleStoredCredentials authState config
  else if negb isAuthenticated && negb (truthy user)
          && truthy pendingVerificationEmail
  then handleEmailVerification config
  else if negb isAuthenticated && negb (truthy user)
  then handleGuestUser hasSeenWelcome config
  else None.

(** The five destinations the handlers can name. *)
Definition destinations : list string :=
  ["/"; "/(tabs)"; "/(auth)/login-passcode"; "/(auth)/signin";
   "/(auth)/verify-email"].

(** ** The routing effect of [useProtectedRoute] *)

(** What the navigation host is asked to do. *)
Inductive command := Replace (target : string).

Module useProtectedRoute.

(** The state one mounted instance of the hook reads: its two [useState]
    cells, its [useRef] latch, and the store and location values it
    subscribes to. *)
Record state := {
  isReady : bool;
  hasNavigatedRef : bool;
  authState : AuthState;
  segments : list string;
  pathname : string;
  hasSeenWelcome : bool;
}.

(** A fresh mount: [useState(false)] twice and [useRef(false)]. *)
Definition mount (a : AuthState) (segs : list string) (path : string)
  : state :=
  {| isReady := false; hasNavigatedRef := false; authState := a;
     segments := segs; pathname := path; hasSeenWelcome := false |}.

(** The body of the second [useEffect]: the new state and the command
    issued, if any. *)
Definition routingEffect (st : state) : state * option command :=
  if negb (isReady st) || hasNavigatedRef st then (st, None)
  else
    let config := buildRouteConfig (segments st) (pathname st) in
    let targetRoute :=
      determineRoute (authState st) config (hasSeenWelcome st) in
    match targetRoute with
    | Some target =>
        if truthy target
        then ({| isReady := isReady st; hasNavigatedRef := true;
                 authState := authState st; segments := segments st;
                 pathname := pathname st;
                 hasSeenWelcome := hasSeenWelcome st |},
              Some (Replace target))
        else (st, None)
    | None => (st, None)
    end.

(** Whatever can change one of the effect's dependencies. *)
Inductive event :=
  | StoreChanged (a : AuthState)
  | LocationChanged (segs : list string) (path : string)
  | SetHasSeenWelcome (welcomed : bool)
  | SetIsReady.

Definition apply (e : event) (st : state) : state :=
  match e with
  | StoreChanged a =>
      {| isReady := isReady st; hasNavigatedRef := hasNavigatedRef st;
         authState := a; segments := segments st; pathname := pathname st;
         hasSeenWelcome := hasSeenWelcome st |}
  | LocationChanged segs path =>
      {| isReady := isReady st; hasNavigatedRef := hasNavigatedRef st;
         authState := authState st; segments := segs; pathname := path;
         hasSeenWelcome := hasSeenWelcome st |}
  | SetHasSeenWelcome welcomed =>
      {| isReady := isReady st; hasNavigatedRef := hasNavigatedRef st;
         authState := authState st; segments := segments st;
         pathname := pathname st; hasSeenWelcome := welcomed |}
  | SetIsReady =>
      {| isReady := true; hasNavigatedRef := hasNavigatedRef st;
         authState := authState st; segments := segments st;
         pathname := pathname st; hasSeenWelcome := hasSeenWelcome st |}
  end.

(** One step: a dependency changes, the component renders again and the
    effect runs on the new values. *)
Inductive step : state → option command → state → Prop :=
  | step_event e st st' c :
      routingEffect (apply e st) = (st', c) → step st c st'.

(** A run of steps with the commands it issued, oldest first. *)
Inductive steps : state → list command → state → Prop :=
  | steps_done st : steps st [] st
  | steps_more st c st' cs st'' :
      step st c st' → steps st' cs st'' →
      steps st (option_list c ++ cs)%list st''.

(** The store's [initialState], restricted to the fields of the
    snapshot; [reset()] writes it. *)
Definition initialState : AuthState :=
  {| user := None; isAuthenticated := false; accessToken := None;
     onboardingStatus := None; pendingVerificationEmail := None |}.

(** The first [useEffect]: [initializeApp] closes over the snapshot of
    the first render.  [welcomed] and [isValid] are what
    [checkWelcomeStatus] and [validateAccessToken] resolve to; both
    catch their own failures and resolve to [false]. *)
Definition initializeApp (a : AuthState) (welcomed isValid : bool)
  : list event :=
  (SetHasSeenWelcome welcomed
     :: (if isAuthenticated a && truthy (accessToken a)
         then if negb isValid then [StoreChanged initialState] else []
         else [])
     ++ [SetIsReady])%list.

(** Running a list of events, for evaluation. *)
Fixpoint run (evs : list event) (st : state) : state * list command :=
  match evs with
  | [] => (st, [])
  | e :: evs' =>
      let '(st1, c) := routingEffect (apply e st) in
      let '(st2, cs) := run evs' st1 in
      (st2, (option_list c ++ cs)%list)
  end.

End useProtectedRoute.

(** ** Sample sessions and locations *)

(** A returning user who has set a passcode and started onboarding. *)
Definition returning_user : User.t :=
  User.mk "u-1" "a@b.com" None None true None None
    (Some OnboardingStatus.started) (Some true) None None.

(** A cached user record that never had a passcode field written. *)
Definition passcodeless_user : User.t :=
  User.mk "u-2" "c@d.com" None None false None None None None None None.

Definition session_authenticated : AuthState :=
  {| user := Some returning_user; isAuthenticated := true;
     accessToken := Some "abc"; onboardingStatus := Some "started";
     pendingVerificationEmail := None |}.

(** What [setTokens] leaves behind when no user was ever stored. *)
Definition session_token_only : AuthState :=
  {| user := None; isAuthenticated := true; accessToken := Some "abc";
     onboardingStatus := None; pendingVerificationEmail := None |}.

Definition session_stored : AuthState :=
  {| user := Some returning_user; isAuthenticated := false;
     accessToken := None; onboardingStatus := None;
     pendingVerificationEmail := None |}.

Definition session_pending : AuthState :=
  {| user := None; isAuthenticated := false; accessToken := None;
     onboardingStatus := None; pendingVerificationEmail := Some "a@b.com" |}.

Definition session_guest : AuthState := useProtectedRoute.initialState.

Definition at_welcome : RouteConfig := buildRouteConfig [] "/".
Definition at_tabs : RouteConfig := buildRouteConfig ["(tabs)"] "/".
Definition at_verify_email : RouteConfig :=
  buildRouteConfig ["(auth)"; "verify-email"] "/(auth)/verify-email".
Definition at_signin : RouteConfig :=
  buildRouteConfig ["(auth)"; "signin"] "/(auth)/signin".
Definition at_stray : RouteConfig :=
  buildRouteConfig ["withdraw"] "/withdraw".

(** ** Start-up collaborators *)

(** A thrown value: an [Error] with its message, or anything else. *)
Inductive thrown :=
  | ErrorObject (message : string)
  | NotAnError.

(** How an awaited promise settles. *)
Inductive outcome (A : Type) :=
  | Resolved (a : A)
  | Rejected (reason : thrown).
Arguments Resolved {A} a.
Arguments Rejected {A} reason.

(** The persistent key-value store: [getItem] of a missing key resolves
    to [null]. *)
Module AsyncStorage.
Definition t := gmap string string.

Definition getItem (key : string) (store : t) : option string :=
  store !! key.

Definition setItem (key value : string) (store : t) : t :=
  <[key := value]> store.
End AsyncStorage.

(** [checkWelcomeStatus], given how the read of ['hasSeenWelcome']
    settled: the [catch] turns a rejected read into [false]. *)
Definition checkWelcomeStatus (read : outcome (option string)) : bool :=
  match read with
  | Resolved welcomed => strict_eq welcomed "true"
  | Rejected _ => false
  end.

(** [validateAccessToken], given how [userService.getProfile()] settled;
    the profile itself is dropped. *)
Definition validateAccessToken {Profile : Type} (fetch : outcome Profile)
  : bool :=
  match fetch with
  | Resolved _ => true
  | Rejected _ => false
  end.

(** ** The welcome screen ([app/index.tsx]) *)

Module WelcomeScreen.

(** The mount effect [setWelcomeFlag]: the storage after it and the value
    of [fontsReady].  [writable] tells whether [setItem] resolves. *)
Definition setWelcomeFlag (writable : bool) (store : AsyncStorage.t)
  : AsyncStorage.t * bool :=
  if writable
  then (AsyncStorage.setItem "hasSeenWelcome" "true" store, true)
  else (store, true).

(** The slide timer.  The slides carry videos and screen dimensions; the
    timer reads only how many there are. *)
Section carousel.
Context {Slide : Type} (onboardingSlides : list Slide).

Definition nextIndex (currentIndex : nat) : nat :=
  (currentIndex + 1) `mod` length onboardingSlides.
End carousel.

End WelcomeScreen.

(** ** Chain utilities ([utils/chains.ts]) *)

Module TestnetChain.
Inductive t := ETH_SEPOLIA | MATIC_AMOY | SOL_DEVNET | APTOS_TESTNET
  | BASE_SEPOLIA.

Definition literal (chain : t) : string :=
  match chain with
  | ETH_SEPOLIA => "ETH-SEPOLIA"
  | MATIC_AMOY => "MATIC-AMOY"
  | SOL_DEVNET => "SOL-DEVNET"
  | APTOS_TESTNET => "APTOS-TESTNET"
  | BASE_SEPOLIA => "BASE-SEPOLIA"
  end.
End TestnetChain.

Module MainnetChain.
Inductive t := ETH | MATIC | AVAX | SOL | APTOS | BASE.

Definition literal (chain : t) : string :=
  match chain with
  | ETH => "ETH"
  | MATIC => "MATIC"
  | AVAX => "AVAX"
  | SOL => "SOL"
  | APTOS => "APTOS"
  | BASE => "BASE"
  end.
End MainnetChain.

(** [haystack.includes(needle)]. *)
Fixpoint includes (haystack needle : string) : bool :=
  String.prefix needle haystack
  || match haystack with
     | EmptyString => false
     | String _ rest => includes rest needle
     end.

(** What [object[key]] finds on a plain object literal: an own property,
    a member inherited from [Object.prototype], or [undefined]. *)
Inductive property (A : Type) :=
  | Own (a : A)
  | Inherited
  | Undefined.
Arguments Own {A} a.
Arguments Inherited {A}.
Arguments Undefined {A}.

Definition Object_prototype : list string :=
  ["constructor"; "__defineGetter__"; "__defineSetter__"; "hasOwnProperty";
   "__lookupGetter__"; "__lookupSetter__"; "isPrototypeOf";
   "propertyIsEnumerable"; "toString"; "valueOf"; "__proto__";
   "toLocaleString"].

Definition get {A} (object : gmap string A) (key : string) : property A :=
  match object !! key with
  | Some a => Own a
  | None => if bool_decide (key ∈ Object_prototype) then Inherited
            else Undefined
  end.

Definition NETWORK_TO_TESTNET_MAP : gmap string TestnetChain.t :=
  list_to_map
    [("solana", TestnetChain.SOL_DEVNET);
     ("base", TestnetChain.BASE_SEPOLIA);
     ("polygon", TestnetChain.MATIC_AMOY);
     ("bnb", TestnetChain.ETH_SEPOLIA)].

Definition getTestnetChain (networkId : option string)
  : property TestnetChain.t :=
  if negb (truthy networkId) then Undefined
  else match networkId with
       | Some id => get NETWORK_TO_TESTNET_MAP id
       | None => Undefined
       end.

Definition isTestnetChain (chain : string) : bool :=
  includes chain "SEPOLIA" || includes chain "DEVNET"
  || includes chain "AMOY" || includes chain "TESTNET".

Definition getChainDisplayName (chain : TestnetChain.t) : string :=
  match chain with
  | TestnetChain.ETH_SEPOLIA => "Ethereum Sepolia"
  | TestnetChain.MATIC_AMOY => "Polygon Amoy"
  | TestnetChain.SOL_DEVNET => "Solana Devnet"
  | TestnetChain.APTOS_TESTNET => "Aptos Testnet"
  | TestnetChain.BASE_SEPOLIA => "Base Sepolia"
  end.

(** ** The auth store ([stores/authStore.ts]) *)

Module AuthStore.

(** [interface AuthState] of the store. *)
Record state := {
  user : option User.t;
  isAuthenticated : bool;
  accessToken : option string;
  refreshToken : option string;
  hasCompletedOnboarding : bool;
  onboardingStatus : option string;
  currentOnboardingStep : option string;
  pendingVerificationEmail : option string;
  hasPasscode : bool;
  isBiometricEnabled : bool;
  passcodeSessionToken : option string;
  passcodeSessionExpiresAt : option string;
  isLoading : bool;
  error : option string;
}.

Definition initialState : state :=
  {| user := None; isAuthenticated := false; accessToken := None;
     refreshToken := None; hasCompletedOnboarding := false;
     onboardingStatus := None; currentOnboardingStep := None;
     pendingVerificationEmail := None; hasPasscode := false;
     isBiometricEnabled := false; passcodeSessionToken := None;
     passcodeSessionExpiresAt := None; isLoading := false; error := None |}.

(** [set({ field: v })] merges one field into the state; a [set] of
    several fields is the composition of these. *)
Definition set_user (v : option User.t) (s : state) : state :=
  {| user := v;
     isAuthenticated := isAuthenticated s;
     accessToken := accessToken s;
     refreshToken := refreshToken s;
     hasCompletedOnboarding := hasCompletedOnboarding s;
     onboardingStatus := onboardingStatus s;
     currentOnboardingStep := currentOnboardingStep s;
     pendingVerificationEmail := pendingVerificationEmail s;
     hasPasscode := hasPasscode s;
     isBiometricEnabled := isBiometricEnabled s;
     passcodeSessionToken := passcodeSessionToken s;
     passcodeSessionExpiresAt := passcodeSessionExpiresAt s;
     isLoading := isLoading s;
     error := error s |}.

Definition set_isAuthenticated (v : bool) (s : state) : state :=
  {| user := user s;
     isAuthenticated := v;
     accessToken := accessToken s;
     refreshToken := refreshToken s;
     hasCompletedOnboarding := hasCompletedOnboarding s;
     onboardingStatus := onboardingStatus s;
     currentOnboardingStep := currentOnboardingStep s;
     pendingVerificationEmail := pendingVerificationEmail s;
     hasPasscode := hasPasscode s;
     isBiometricEnabled := isBiometricEnabled s;
     passcodeSessionToken := passcodeSessionToken s;
     passcodeSessionExpiresAt := passcodeSessionExpiresAt s;
     isLoading := isLoading s;
     error := error s |}.

Definition set_accessToken (v : option string) (s : state) : state :=
  {| user := user s;
     isAuthenticated := isAuthenticated s;
     accessToken := v;
     refreshToken := refreshToken s;
     hasCompletedOnboarding := hasCompletedOnboarding s;
     onboardingStatus := onboardingStatus s;
     currentOnboardingStep := currentOnboardingStep s;
     pendingVerificationEmail := pendingVerificationEmail s;
     hasPasscode := hasPasscode s;
     isBiometricEnabled := isBiometricEnabled s;
     passcodeSessionToken := passcodeSessionToken s;
     passcodeSessionExpiresAt := passcodeSessionExpiresAt s;
     isLoading := isLoading s;
     error := error s |}.

Definition set_refreshToken (v : option string) (s : state) : state :=
  {| user := user s;
     isAuthenticated := isAuthenticated s;
     accessToken := accessToken s;
     refreshToken := v;
     hasCompletedOnboarding := hasCompletedOnboarding s;
     onboardingStatus := onboardingStatus s;
     currentOnboardingStep := currentOnboardingStep s;
     pendingVerificationEmail := pendingVerificationEmail s;
     hasPasscode := hasPasscode s;
     isBiometricEnabled := isBiometricEnabled s;
     passcodeSessionToken := passcodeSessionToken s;
     passcodeSessionExpiresAt := passcodeSessionExpiresAt s;
     isLoading := isLoading s;
     error := error s |}.

Definition set_hasCompletedOnboarding (v : bool) (s : state) : state :=
  {| user := user s;
     isAuthenticated := isAuthenticated s;
     accessToken := accessToken s;
     refreshToken := refreshToken s;
     hasCompletedOnboarding := v;
     onboardingStatus := onboardingStatus s;
     currentOnboardingStep := currentOnboardingStep s;
     pendingVerificationEmail := pendingVerificationEmail s;
     hasPasscode := hasPasscode s;
     isBiometricEnabled := isBiometricEnabled s;
     passcodeSessionToken := passcodeSessionToken s;
     passcodeSessionExpiresAt := passcodeSessionExpiresAt s;
     isLoading := isLoading s;
     error := error s |}.

Definition set_onboardingStatus (v : option string) (s : state) : state :=
  {| user := user s;
     isAuthenticated := isAuthenticated s;
     accessToken := accessToken s;
     refreshToken := refreshToken s;
     hasCompletedOnboarding := hasCompletedOnboarding s;
     onboardingStatus := v;
     currentOnboardingStep := currentOnboardingStep s;
     pendingVerificationEmail := pendingVerificationEmail s;
     hasPasscode := hasPasscode s;
     isBiometricEnabled := isBiometricEnabled s;
     passcodeSessionToken := passcodeSessionToken s;
     passcodeSessionExpiresAt := passcodeSessionExpiresAt s;
     isLoading := isLoading s;
     error := error s |}.

Definition set_currentOnboardingStep (v : option string) (s : state) : state :=
  {| user := user s;
     isAuthenticated := isAuthenticated s;
     accessToken := accessToken s;
     refreshToken := refreshToken s;
     hasCompletedOnboarding := hasCompletedOnboarding s;
     onboardingStatus := onboardingStatus s;
     currentOnboardingStep := v;
     pendingVerificationEmail := pendingVerificationEmail s;
     hasPasscode := hasPasscode s;
     isBiometricEnabled := isBiometricEnabled s;
     passcodeSessionToken := passcodeSessionToken s;
     passcodeSessionExpiresAt := passcodeSessionExpiresAt s;
     isLoading := isLoading s;
     error := error s |}.

Definition set_pendingVerificationEmail (v : option string) (s : state) : state :=
  {| user := user s;
     isAuthenticated := isAuthenticated s;
     accessToken := accessToken s;
     refreshToken := refreshToken s;
     hasCompletedOnboarding := hasCompletedOnboarding s;
     onboardingStatus := onboardingStatus s;
     currentOnboardingStep := currentOnboardingStep s;
     pendingVerificationEmail := v;
     hasPasscode := hasPasscode s;
     isBiometricEnabled := isBiometricEnabled s;
     passcodeSessionToken := passcodeSessionToken s;
     passcodeSessionExpiresAt := passcodeSessionExpiresAt s;
     isLoading := isLoading s;
     error := error s |}.

Definition set_hasPasscode (v : bool) (s : state) : state :=
  {| user := user s;
     isAuthenticated := isAuthenticated s;
     accessToken := accessToken s;
     refreshToken := refreshToken s;
     hasCompletedOnboarding := hasCompletedOnboarding s;
     onboardingStatus := onboardingStatus s;
     currentOnboardingStep := currentOnboardingStep s;
     pendingVerificationEmail := pendingVerificationEmail s;
     hasPasscode := v;
     isBiometricEnabled := isBiometricEnabled s;
     passcodeSessionToken := passcodeSessionToken s;
     passcodeSessionExpiresAt := passcodeSessionExpiresAt s;
     isLoading := isLoading s;
     error := error s |}.

Definition set_isBiometricEnabled (v : bool) (s : state) : state :=
  {| user := user s;
     isAuthenticated := isAuthenticated s;
     accessToken := accessToken s;
     refreshToken := refreshToken s;
     hasCompletedOnboarding := hasCompletedOnboarding s;
     onboardingStatus := onboardingStatus s;
     currentOnboardingStep := currentOnboardingStep s;
     pendingVerificationEmail := pendingVerificationEmail s;
     hasPasscode := hasPasscode s;
     isBiometricEnabled := v;
     passcodeSessionToken := passcodeSessionToken s;
     passcodeSessionExpiresAt := passcodeSessionExpiresAt s;
     isLoading := isLoading s;
     error := error s |}.

Definition set_passcodeSessionToken (v : option string) (s : state) : state :=
  {| user := user s;
     isAuthenticated := isAuthenticated s;
     accessToken := accessToken s;
     refreshToken := refreshToken s;
     hasCompletedOnboarding := hasCompletedOnboarding s;
     onboardingStatus := onboardingStatus s;
     currentOnboardingStep := currentOnboardingStep s;
     pendingVerificationEmail := pendingVerificationEmail s;
     hasPasscode := hasPasscode s;
     isBiometricEnabled := isBiometricEnabled s;
     passcodeSessionToken := v;
     passcodeSessionExpiresAt := passcodeSessionExpiresAt s;
     isLoading := isLoading s;
     error := error s |}.

Definition set_passcodeSessionExpiresAt (v : option string) (s : state) : state :=
  {| user := user s;
     isAuthenticated := isAuthenticated s;
     accessToken := accessToken s;
     refreshToken := refreshToken s;
     hasCompletedOnboarding := hasCompletedOnboarding s;
     onboardingStatus := onboardingStatus s;
     currentOnboardingStep := currentOnboardingStep s;
     pendingVerificationEmail := pendingVerificationEmail s;
     hasPasscode := hasPasscode s;
     isBiometricEnabled := isBiometricEnabled s;
     passcodeSessionToken := passcodeSessionToken s;
     passcodeSessionExpiresAt := v;
     isLoading := isLoading s;
     error := error s |}.

Definition set_isLoading (v : bool) (s : state) : state :=
  {| user := user s;
     isAuthenticated := isAuthenticated s;
     accessToken := accessToken s;
     refreshToken := refreshToken s;
     hasCompletedOnboarding := hasCompletedOnboarding s;
     onboardingStatus := onboardingStatus s;
     currentOnboardingStep := currentOnboardingStep s;
     pendingVerificationEmail := pendingVerificationEmail s;
     hasPasscode := hasPasscode s;
     isBiometricEnabled := isBiometricEnabled s;
     passcodeSessionToken := passcodeSessionToken s;
     passcodeSessionExpiresAt := passcodeSessionExpiresAt s;
     isLoading := v;
     error := error s |}.

Definition set_error (v : option string) (s : state) : state :=
  {| user := user s;
     isAuthenticated := isAuthenticated s;
     accessToken := accessToken s;
     refreshToken := refreshToken s;
     hasCompletedOnboarding := hasCompletedOnboarding s;
     onboardingStatus := onboardingStatus s;
     currentOnboardingStep := currentOnboardingStep s;
     pendingVerificationEmail := pendingVerificationEmail s;
     hasPasscode := hasPasscode s;
     isBiometricEnabled := isBiometricEnabled s;
     passcodeSessionToken := passcodeSessionToken s;
     passcodeSessionExpiresAt := passcodeSessionExpiresAt s;
     isLoading := isLoading s;
     error := v |}.

(** The fields of the service responses the store reads. *)
Record LoginResponse := {
  login_user : User.t;
  login_accessToken : string;
  login_refreshToken : string;
}.

Record RegisterResponse := { identifier : option string }.

Record RefreshResponse := {
  token : string;
  refresh_refreshToken : string;
}.

(** [error instanceof Error ? error.message : fallback]. *)
Definition message_or (e : thrown) (fallback : string) : string :=
  match e with
  | ErrorObject message => message
  | NotAnError => fallback
  end.

(** A call that hands back a promise, or throws before it does. *)
Inductive invocation (A : Type) :=
  | Promise (settles : outcome A)
  | Throws (e : thrown).
Arguments Promise {A} settles.
Arguments Throws {A} e.

(** The asynchronous actions take how their service call settled and
    give the state once they are done, with how their own promise
    settles. *)
Definition login (response : outcome LoginResponse) (s : state)
  : state * outcome unit :=
  let s := set_error None (set_isLoading true s) in
  match response with
  | Resolved response =>
      (set_isLoading false
         (set_hasPasscode (truthy (User.hasPasscode (login_user response)))
         (set_onboardingStatus
            (js_or (OnboardingStatus.literal
                      <$> User.onboardingStatus (login_user response)) None)
         (set_refreshToken (Some (login_refreshToken response))
         (set_accessToken (Some (login_accessToken response))
         (set_isAuthenticated true
         (set_user (Some (login_user response)) s)))))),
       Resolved ())
  | Rejected e =>
      (set_isLoading false
         (set_error (Some (message_or e "Login failed")) s),
       Rejected e)
  end.

(** [set({ ...initialState, hasPasscode: false,
    hasCompletedOnboarding: false })]: every key is overwritten. *)
Definition cleared : state :=
  set_hasCompletedOnboarding false (set_hasPasscode false initialState).

(** A rejection of [authService.logout()] is swallowed by its own
    [.catch]; only a synchronous throw reaches the outer [catch]. *)
Definition logout (call : invocation unit) (s : state)
  : state * outcome unit :=
  let s := set_isLoading true s in
  match call with
  | Promise _ => (cleared, Resolved ())
  | Throws e =>
      (set_error (Some (message_or e "Logout failed")) cleared,
       Resolved ())
  end.

Definition register (email : string) (response : outcome RegisterResponse)
    (s : state) : state * outcome unit :=
  let s := set_error None (set_isLoading true s) in
  match response with
  | Resolved response =>
      (set_isLoading false
         (set_user None
         (set_isAuthenticated false
         (set_pendingVerificationEmail
            (if truthy email then Some email else identifier response)
            s))),
       Resolved ())
  | Rejected e =>
      (set_isLoading false
         (set_error (Some (message_or e "Registration failed")) s),
       Rejected e)
  end.

(** On failure the action starts [logout()] without awaiting it and
    rethrows; the state given is the one after that logout is done. *)
Definition refreshSession (response : outcome RefreshResponse)
    (logoutCall : invocation unit) (s : state) : state * outcome unit :=
  if negb (truthy (refreshToken s))
  then (s, Rejected (ErrorObject "No refresh token available"))
  else
    let s := set_isLoading true s in
    match response with
    | Resolved response =>
        (set_isLoading false
           (set_refreshToken (Some (refresh_refreshToken response))
           (set_accessToken (Some (token response)) s)),
         Resolved ())
    | Rejected e =>
        let s :=
          set_isLoading false
            (set_error (Some (message_or e "Session refresh failed")) s) in
        ((logout logoutCall s).1, Rejected e)
    end.

Definition setUser (u : User.t) (s : state) : state :=
  set_isAuthenticated true (set_user (Some u) s).

Definition setTokens (access refresh : string) (s : state) : state :=
  set_isAuthenticated true
    (set_refreshToken (Some refresh) (set_accessToken (Some access) s)).

Definition setPendingEmail (email : option string) (s : state) : state :=
  set_pendingVerificationEmail email s.

(** [step || null]. *)
Definition setOnboardingStatus (status : string) (step : option string)
    (s : state) : state :=
  set_currentOnboardingStep (js_or step None)
    (set_onboardingStatus (Some status) s).

Definition setError (e : option string) (s : state) : state :=
  set_error e s.

Definition clearError (s : state) : state := set_error None s.

Definition reset (s : state) : state := initialState.

(** The part of the state [persist] writes to storage. *)
Record persisted := {
  p_user : option User.t;
  p_accessToken : option string;
  p_refreshToken : option string;
  p_hasPasscode : bool;
  p_hasCompletedOnboarding : bool;
  p_isBiometricEnabled : bool;
  p_isAuthenticated : bool;
  p_onboardingStatus : option string;
  p_pendingVerificationEmail : option string;
  p_passcodeSessionToken : option string;
  p_passcodeSessionExpiresAt : option string;
}.

Definition partialize (s : state) : persisted :=
  {| p_user := user s; p_accessToken := accessToken s;
     p_refreshToken := refreshToken s; p_hasPasscode := hasPasscode s;
     p_hasCompletedOnboarding := hasCompletedOnboarding s;
     p_isBiometricEnabled := isBiometricEnabled s;
     p_isAuthenticated := isAuthenticated s;
     p_onboardingStatus := onboardingStatus s;
     p_pendingVerificationEmail := pendingVerificationEmail s;
     p_passcodeSessionToken := passcodeSessionToken s;
     p_passcodeSessionExpiresAt := passcodeSessionExpiresAt s |}.

End AuthStore.

(** The five selectors of [useProtectedRoute]: what the router sees of
    the store. *)
Definition snapshot (s : AuthStore.state) : AuthState :=
  {| user := AuthStore.user s;
     isAuthenticated := AuthStore.isAuthenticated s;
     accessToken := AuthStore.accessToken s;
     onboardingStatus := AuthStore.onboardingStatus s;
     pendingVerificationEmail := AuthStore.pendingVerificationEmail s |}.

(** What the routing effect would compute on a state: its [targetRoute]. *)
Definition targetRoute (st : useProtectedRoute.state) : option string :=
  determineRoute (useProtectedRoute.authState st)
    (buildRouteConfig (useProtectedRoute.segments st)
       (useProtectedRoute.pathname st))
    (useProtectedRoute.hasSeenWelcome st).

(** * Properties *)

(** ** Truthiness facts *)

Lemma truthy_user_is_Some (u : option User.t) :
  truthy u = true ↔ is_Some u.
Proof.
  destruct u as [u|]; cbn.
  - split; [eauto | done].
  - split; [done | by intros [? ?]].
Qed.

Lemma truthy_string_nonempty (s : option string) :
  truthy s = true ↔ ∃ t, s = Some t ∧ t ≠ "".
Proof.
  destruct s as [[|ch t]|]; cbn; split; try done.
  - by intros (t & [= <-] & Hne).
  - intros _. by eexists.
  - by intros (? & ? & ?).
Qed.

Lemma literal_truthy (st : OnboardingStatus.t) :
  truthy (OnboardingStatus.literal st) = true.
Proof. by destruct st. Qed.

(** ** Branch dispatch of [determineRoute]

    Which of the four handlers decides, by the three session tests made in
    the source's order. *)
Section dispatch.
Variables (a : AuthState) (c : RouteConfig) (w : bool).

Lemma dispatch_authenticated :
  isAuthenticated a = true → truthy (user a) = true →
  truthy (accessToken a) = true →
  determineRoute a c w = handleAuthenticatedUser a c.
Proof. unfold determineRoute. by intros -> -> ->. Qed.

Lemma dispatch_stored :
  isAuthenticated a = false → truthy (user a) = true →
  determineRoute a c w = handleStoredCredentials a c.
Proof. unfold determineRoute. by intros -> ->. Qed.

Lemma dispatch_pending :
  isAuthenticated a = false → truthy (user a) = false →
  truthy (pendingVerificationEmail a) = true →
  determineRoute a c w = handleEmailVerification c.
Proof. unfold determineRoute. by intros -> -> ->. Qed.

Lemma dispatch_guest :
  isAuthenticated a = false → truthy (user a) = false →
  truthy (pendingVerificationEmail a) = false →
  determineRoute a c w = handleGuestUser w c.
Proof. unfold determineRoute. by intros -> -> ->. Qed.

Lemma dispatch_fallthrough :
  isAuthenticated a = true →
  truthy (user a) = false ∨ truthy (accessToken a) = false →
  determineRoute a c w = None.
Proof.
  unfold determineRoute. intros -> [-> | ->]; cbn; [done|].
  by rewrite andb_false_r.
Qed.
End dispatch.

Section handlers.
Variables (a : AuthState) (c : RouteConfig).

Lemma handleAuthenticatedUser_range t :
  handleAuthenticatedUser a c = Some t → t = "/(tabs)".
Proof.
  unfold handleAuthenticatedUser.
  repeat case_match; congruence.
Qed.

Lemma handleStoredCredentials_range t :
  handleStoredCredentials a c = Some t →
  t = "/(auth)/login-passcode" ∨ t = "/(auth)/signin".
Proof.
  unfold handleStoredCredentials.
  repeat case_match; intros [= <-]; auto.
Qed.

Lemma handleEmailVerification_range t :
  handleEmailVerification c = Some t → t = "/(auth)/verify-email".
Proof.
  unfold handleEmailVerification.
  repeat case_match; congruence.
Qed.

Lemma handleGuestUser_range w t :
  handleGuestUser w c = Some t → t = "/".
Proof.
  unfold handleGuestUser.
  repeat case_match; congruence.
Qed.
End handlers.

(** Every session falls under one of the five dispatch lemmas. *)
Lemma determineRoute_cases (a : AuthState) (c : RouteConfig) (w : bool) :
  determineRoute a c w = handleAuthenticatedUser a c
  ∨ determineRoute a c w = handleStoredCredentials a c
  ∨ determineRoute a c w = handleEmailVerification c
  ∨ determineRoute a c w = handleGuestUser w c
  ∨ determineRoute a c w = None.
Proof.
  unfold determineRoute.
  repeat case_match; auto 6.
Qed.

Lemma determineRoute_range (a : AuthState) (c : RouteConfig) (w : bool) t :
  determineRoute a c w = Some t → t ∈ destinations.
Proof.
  unfold destinations.
  destruct (determineRoute_cases a c w) as [E|[E|[E|[E|E]]]];
    rewrite E; intros Ht.
  - apply handleAuthenticatedUser_range in Ht as ->. repeat constructor.
  - apply handleStoredCredentials_range in Ht as [-> | ->]; repeat constructor.
  - apply handleEmailVerification_range in Ht as ->. repeat constructor.
  - apply handleGuestUser_range in Ht as ->. repeat constructor.
  - done.
Qed.

(** ** The decision engine *)

(** C1. Critical-flow protection: a session whose [isAuthenticated],
    [user] and [accessToken] are all truthy stays where it is on any of
    the four critical screens, whatever the onboarding status, the tabs
    flag and the welcome flag are. *)
Theorem critical_flow_protection (a : AuthState) (c : RouteConfig) (w : bool) :
  isAuthenticated a = true →
  truthy (user a) = true →
  truthy (accessToken a) = true →
  isOnLoginPasscode c = true ∨ isOnVerifyEmail c = true
    ∨ isOnCreatePasscode c = true ∨ isOnConfirmPasscode c = true →
  determineRoute a c w = None.
Proof.
  intros Hauth Huser Htok Hcrit.
  rewrite dispatch_authenticated by done.
  unfold handleAuthenticatedUser, isInCriticalAuthFlow.
  destruct Hcrit as [-> | [-> | [-> | ->]]];
    by rewrite ?orb_true_r.
Qed.

Lemma critical_flow_protection_witness :
  determineRoute session_authenticated at_verify_email false = None.
Proof.
  apply critical_flow_protection;
    [reflexivity | reflexivity | reflexivity | right; left; reflexivity].
Defined.

(** C2. Totality: on every input [determineRoute] yields either nothing
    or a non-empty target; the function has no failing branch. *)
Theorem determineRoute_total (a : AuthState) (c : RouteConfig) (w : bool) :
  determineRoute a c w = None
  ∨ ∃ t, determineRoute a c w = Some t ∧ t ≠ "".
Proof.
  destruct (determineRoute a c w) as [t|] eqn:E; [right | by left].
  exists t. split; [done|].
  apply determineRoute_range in E. unfold destinations in E.
  intros ->. by repeat (apply elem_of_cons in E as [? | E]; [done|]);
    apply elem_of_nil in E.
Qed.

(** C3. Malformed session: [isAuthenticated] set while the user or the
    access token is missing (or an empty token) matches none of the four
    branches and reaches the final [return null]. *)
Theorem malformed_session_stays (a : AuthState) (c : RouteConfig) (w : bool) :
  isAuthenticated a = true →
  truthy (user a) = false ∨ truthy (accessToken a) = false →
  determineRoute a c w = None.
Proof. apply dispatch_fallthrough. Qed.

Lemma malformed_session_stays_witness :
  determineRoute session_token_only at_stray false = None.
Proof.
  apply malformed_session_stays; [reflexivity | left; reflexivity].
Defined.

(** C4. Guest branch: without a session, a user or a pending email, the
    result is (i) nothing when the welcome was seen and the location is in
    the auth group; (ii) otherwise the root when the welcome was not seen
    and the location is not the welcome screen; (iii) otherwise the root
    when the location is in the tabs group, or neither in the auth group
    nor the welcome screen; (iv) nothing in every other case. *)
Theorem guest_branch (a : AuthState) (c : RouteConfig) (w : bool) :
  isAuthenticated a = false →
  user a = None →
  truthy (pendingVerificationEmail a) = false →
  let seen_in_auth := w = true ∧ inAuthGroup c = true in
  let unseen_off_welcome := w = false ∧ isOnWelcomeScreen c = false in
  let stray :=
    inTabsGroup c = true
    ∨ (inAuthGroup c = false ∧ isOnWelcomeScreen c = false) in
  (seen_in_auth → determineRoute a c w = None)
  ∧ (¬ seen_in_auth → unseen_off_welcome →
     determineRoute a c w = Some "/")
  ∧ (¬ seen_in_auth → ¬ unseen_off_welcome → stray →
     determineRoute a c w = Some "/")
  ∧ (¬ seen_in_auth → ¬ unseen_off_welcome → ¬ stray →
     determineRoute a c w = None).
Proof.
  intros Hauth Huser Hmail; cbn zeta.
  rewrite dispatch_guest by (by rewrite ?Huser).
  unfold handleGuestUser.
  destruct w, (inAuthGroup c), (isOnWelcomeScreen c), (inTabsGroup c);
    cbn; intuition congruence.
Qed.

Lemma guest_branch_witness :
  determineRoute session_guest at_stray false = Some "/".
Proof.
  refine (proj1 (proj2 (guest_branch session_guest at_stray false _ _ _)) _ _);
    try reflexivity.
  - intros [? _]; discriminate.
  - split; reflexivity.
Defined.

(** C5. Stored credentials: with [isAuthenticated] off and a cached user,
    the result is (i) nothing inside the auth group; (ii) otherwise the
    login-passcode path when the user has a passcode and the location is
    not that screen; (iii) otherwise the sign-in path when the user has no
    passcode (the field false or never written) and the location is not
    the welcome screen; (iv) nothing in every other case. *)
Theorem stored_credentials_branch
    (a : AuthState) (u : User.t) (c : RouteConfig) (w : bool) :
  isAuthenticated a = false →
  user a = Some u →
  let to_login :=
    User.hasPasscode u = Some true ∧ isOnLoginPasscode c = false in
  let to_signin :=
    User.hasPasscode u ≠ Some true ∧ isOnWelcomeScreen c = false in
  (inAuthGroup c = true → determineRoute a c w = None)
  ∧ (inAuthGroup c = false → to_login →
     determineRoute a c w = Some "/(auth)/login-passcode")
  ∧ (inAuthGroup c = false → ¬ to_login → to_signin →
     determineRoute a c w = Some "/(auth)/signin")
  ∧ (inAuthGroup c = false → ¬ to_login → ¬ to_signin →
     determineRoute a c w = None).
Proof.
  intros Hauth Huser; cbn zeta.
  rewrite dispatch_stored by (by rewrite ?Huser).
  unfold handleStoredCredentials, user_hasPasscode. rewrite Huser; cbn.
  destruct (User.hasPasscode u) as [[]|], (inAuthGroup c),
    (isOnLoginPasscode c), (isOnWelcomeScreen c);
    cbn; intuition congruence.
Qed.

Lemma stored_credentials_branch_witness :
  determineRoute session_stored at_stray true
  = Some "/(auth)/login-passcode".
Proof.
  refine (proj1 (proj2 (stored_credentials_branch
            session_stored returning_user at_stray true _ _)) _ _);
    try reflexivity.
  split; reflexivity.
Defined.

(** C6. Pending verification: with [isAuthenticated] off, no user and a
    pending email, the result is nothing on the verify-email screen, the
    verify-email path anywhere else except the welcome screen, and
    nothing on the welcome screen. *)
Theorem pending_verification_branch
    (a : AuthState) (c : RouteConfig) (w : bool) :
  isAuthenticated a = false →
  user a = None →
  truthy (pendingVerificationEmail a) = true →
  (isOnVerifyEmail c = true → determineRoute a c w = None)
  ∧ (isOnVerifyEmail c = false → isOnWelcomeScreen c = false →
     determineRoute a c w = Some "/(auth)/verify-email")
  ∧ (isOnWelcomeScreen c = true → determineRoute a c w = None).
Proof.
  intros Hauth Huser Hmail.
  rewrite dispatch_pending by (by rewrite ?Huser).
  unfold handleEmailVerification.
  destruct (isOnVerifyEmail c), (isOnWelcomeScreen c);
    cbn; intuition congruence.
Qed.

Lemma pending_verification_branch_witness :
  determineRoute session_pending at_welcome false = None.
Proof.
  refine (proj2 (proj2 (pending_verification_branch
            session_pending at_welcome false _ _ _)) _);
    reflexivity.
Defined.

(** C9. The welcome flag is read in the guest branch only: when the
    session is authenticated, or has a user, or has a pending email, both
    values of the flag give the same result. *)
Theorem welcome_flag_noninterference (a : AuthState) (c : RouteConfig) :
  isAuthenticated a = true ∨ is_Some (user a)
    ∨ truthy (pendingVerificationEmail a) = true →
  determineRoute a c true = determineRoute a c false.
Proof.
  rewrite <- truthy_user_is_Some. unfold determineRoute.
  destruct (isAuthenticated a), (truthy (user a)),
    (truthy (accessToken a)), (truthy (pendingVerificationEmail a));
    cbn; try done.
  all: intros [? | [? | ?]]; discriminate.
Qed.

Lemma welcome_flag_noninterference_witness :
  determineRoute session_pending at_stray true
  = determineRoute session_pending at_stray false.
Proof.
  apply welcome_flag_noninterference. right; right; reflexivity.
Defined.

(** C10. Closed output range: a target returned by [determineRoute] is
    one of the five literal paths, and each of the five is returned on
    some input. *)
Theorem closed_output_range :
  (∀ a c w t, determineRoute a c w = Some t → t ∈ destinations)
  ∧ (∀ t, t ∈ destinations → ∃ a c w, determineRoute a c w = Some t).
Proof.
  split; [apply determineRoute_range|].
  intros t Ht. unfold destinations in Ht.
  repeat (apply elem_of_cons in Ht as [-> | Ht]).
  - by exists session_guest, at_stray, false.
  - by exists session_authenticated, at_stray, false.
  - by exists session_stored, at_stray, false.
  - exists {| user := Some passcodeless_user; isAuthenticated := false;
              accessToken := None; onboardingStatus := None;
              pendingVerificationEmail := None |}, at_stray, false.
    done.
  - by exists session_pending, at_stray, false.
  - by apply elem_of_nil in Ht.
Qed.

Lemma closed_output_range_witness :
  "/(tabs)" ∈ destinations.
Proof.
  apply (proj1 closed_output_range session_authenticated at_stray false).
  reflexivity.
Defined.

(** ** The route config builder *)

Lemma strict_eq_head (segs : list string) (lit : string) :
  strict_eq (segs !! 0) lit = true ↔ ∃ rest, segs = lit :: rest.
Proof.
  unfold strict_eq. rewrite bool_decide_eq_true.
  destruct segs as [|s rest]; cbn.
  - split; [done | by intros [? ?]].
  - split; [intros [= ->]; eauto | by intros [? [= -> ?]]].
Qed.

(** C7. [buildRouteConfig] is total and fills every flag by exact
    comparison: the group flags look at the first segment only, the
    screen flags at the whole path; an empty segment list sets no group
    flag, and a screen path with a slash appended sets no screen flag. *)
Theorem buildRouteConfig_exact (segs : list string) (path : string) :
  let cfg := buildRouteConfig segs path in
  (inAuthGroup cfg = true ↔ ∃ rest, segs = "(auth)" :: rest)
  ∧ (inTabsGroup cfg = true ↔ ∃ rest, segs = "(tabs)" :: rest)
  ∧ (isOnWelcomeScreen cfg = true ↔ path = "/")
  ∧ (isOnLoginPasscode cfg = true ↔ path = "/(auth)/login-passcode")
  ∧ (isOnVerifyEmail cfg = true ↔ path = "/(auth)/verify-email")
  ∧ (isOnCreatePasscode cfg = true ↔ path = "/(auth)/create-passcode")
  ∧ (isOnConfirmPasscode cfg = true ↔ path = "/(auth)/confirm-passcode")
  ∧ (segs = [] → inAuthGroup cfg = false ∧ inTabsGroup cfg = false)
  ∧ (path ∈ ["/"; "/(auth)/login-passcode"; "/(auth)/verify-email";
              "/(auth)/create-passcode"; "/(auth)/confirm-passcode"] →
     let slashed := buildRouteConfig segs (path +:+ "/") in
     isOnWelcomeScreen slashed = false
     ∧ isOnLoginPasscode slashed = false
     ∧ isOnVerifyEmail slashed = false
     ∧ isOnCreatePasscode slashed = false
     ∧ isOnConfirmPasscode slashed = false).
Proof.
  cbn. rewrite !strict_eq_head, !bool_decide_eq_true.
  split_and!; try done.
  - by intros ->.
  - intros Hp.
    repeat (apply elem_of_cons in Hp as [-> | Hp]);
      [by vm_compute .. | by apply elem_of_nil in Hp].
Qed.

Lemma buildRouteConfig_exact_witness :
  inAuthGroup (buildRouteConfig [] "/(auth)/verify-email") = false
  ∧ inTabsGroup (buildRouteConfig [] "/(auth)/verify-email") = false.
Proof.
  refine (proj1 (proj2 (proj2 (proj2 (proj2 (proj2 (proj2 (proj2
            (buildRouteConfig_exact [] "/(auth)/verify-email")))))))) _).
  reflexivity.
Defined.

(** ** The one-shot navigation latch *)

Module latch.
Import useProtectedRoute.

(** What one run of the effect can do: it never touches [isReady]; it
    issues a command only when ready and not yet latched, and latches as
    it does; without a command the state is unchanged. *)
Lemma routingEffect_inv (st st' : state) (c : option command) :
  routingEffect st = (st', c) →
  isReady st' = isReady st
  ∧ (c = None → st' = st)
  ∧ (c ≠ None →
     isReady st = true ∧ hasNavigatedRef st = false
     ∧ hasNavigatedRef st' = true).
Proof.
  unfold routingEffect.
  destruct (isReady st) eqn:Hr, (hasNavigatedRef st) eqn:Hn; cbn;
    repeat case_match; intros [= <- <-]; cbn; by rewrite ?Hr.
Qed.

Lemma apply_isReady (e : event) (st : state) :
  isReady st = true → isReady (apply e st) = true.
Proof. by destruct e. Qed.

Lemma apply_not_ready (e : event) (st : state) :
  isReady (apply e st) = false → isReady st = false.
Proof. by destruct e. Qed.

Lemma apply_latch (e : event) (st : state) :
  hasNavigatedRef (apply e st) = hasNavigatedRef st.
Proof. by destruct e. Qed.

Lemma step_latched (st st' : state) (c : option command) :
  step st c st' → hasNavigatedRef st = true →
  c = None ∧ hasNavigatedRef st' = true.
Proof.
  intros [e s s' c' Heff] Hn.
  apply routingEffect_inv in Heff as (_ & Hsame & Hcmd).
  rewrite apply_latch, Hn in Hcmd.
  destruct c' as [k|].
  - by destruct Hcmd as (_ & ? & _).
  - split; [done|]. by rewrite Hsame, apply_latch.
Qed.

Lemma step_fires (st st' : state) (k : command) :
  step st (Some k) st' → hasNavigatedRef st' = true.
Proof.
  intros Hstep. inversion Hstep as [e s s' c' Heff]; subst.
  apply routingEffect_inv in Heff as (_ & _ & Hcmd).
  by destruct Hcmd as (_ & _ & ?).
Qed.

Lemma step_not_ready (st st' : state) (c : option command) :
  step st c st' → isReady st' = false →
  c = None ∧ isReady st = false.
Proof.
  intros [e s s' c' Heff] Hr.
  apply routingEffect_inv in Heff as (Hready & _ & Hcmd).
  rewrite Hr in Hready. split.
  - destruct c' as [k|]; [|done].
    destruct Hcmd as (? & _); [done | congruence].
  - by eapply apply_not_ready.
Qed.

(** Once latched, a run issues nothing and stays latched. *)
Lemma steps_latched (st st' : state) (cs : list command) :
  steps st cs st' → hasNavigatedRef st = true →
  cs = [] ∧ hasNavigatedRef st' = true.
Proof.
  induction 1 as [st | st c st1 cs st2 Hstep _ IH]; [done|].
  intros Hn. destruct (step_latched _ _ _ Hstep Hn) as [-> Hn1].
  by apply IH.
Qed.

(** A run issues at most one command, and is latched after it. *)
Lemma steps_at_most_one (st st' : state) (cs : list command) :
  steps st cs st' →
  (length cs ≤ 1)%nat ∧ (cs ≠ [] → hasNavigatedRef st' = true).
Proof.
  induction 1 as [st | st c st1 cs st2 Hstep Hrest IH]; [by cbn; auto|].
  destruct c as [k|]; cbn; [|done].
  apply step_fires in Hstep.
  destruct (steps_latched _ _ _ Hrest Hstep) as [-> ?].
  by auto.
Qed.

(** A run that ends not ready has issued nothing. *)
Lemma steps_not_ready (st st' : state) (cs : list command) :
  steps st cs st' → isReady st' = false →
  cs = [] ∧ isReady st = false.
Proof.
  induction 1 as [st | st c st1 cs st2 Hstep _ IH]; [done|].
  intros Hr. destruct (IH Hr) as [-> Hr1].
  by destruct (step_not_ready _ _ _ Hstep Hr1) as [-> ?].
Qed.

Lemma steps_app (st st1 st2 : state) (cs1 cs2 : list command) :
  steps st cs1 st1 → steps st1 cs2 st2 → steps st (cs1 ++ cs2) st2.
Proof.
  induction 1 as [st | st c st' cs st1 Hstep _ IH]; [done|].
  intros Hrest. rewrite <- (assoc_L (++)).
  eapply steps_more; [done | by apply IH].
Qed.

(** The executable [run] produces runs of the step relation. *)
Lemma run_steps (evs : list event) (st : state) :
  steps st (run evs st).2 (run evs st).1.
Proof.
  revert st. induction evs as [|e evs IH]; intros st; cbn.
  - constructor.
  - destruct (routingEffect (apply e st)) as [st1 c] eqn:Heff.
    specialize (IH st1). destruct (run evs st1) as [st2 cs]; cbn in *.
    eapply steps_more; [by econstructor | done].
Qed.

End latch.

(** C8. One-shot latch: split any run from a fresh mount in two.  The
    whole run issues at most one [replace]; a first part that ends before
    [isReady] is set has issued none; and if the first part has issued
    one, the second part issues none. *)
Theorem one_shot_navigation
    (a : AuthState) (segs : list string) (path : string)
    (st1 st2 : useProtectedRoute.state) (cs1 cs2 : list command) :
  useProtectedRoute.steps (useProtectedRoute.mount a segs path) cs1 st1 →
  useProtectedRoute.steps st1 cs2 st2 →
  (length (cs1 ++ cs2) ≤ 1)%nat
  ∧ (useProtectedRoute.isReady st1 = false → cs1 = [])
  ∧ (cs1 ≠ [] → cs2 = []).
Proof.
  intros H1 H2. split_and!.
  - by eapply latch.steps_at_most_one, latch.steps_app.
  - intros Hr. by eapply latch.steps_not_ready.
  - intros Hne. apply latch.steps_at_most_one in H1 as [_ Hn].
    by eapply latch.steps_latched; [|apply Hn].
Qed.

Lemma one_shot_navigation_witness :
  let m := useProtectedRoute.mount session_guest ["withdraw"] "/withdraw" in
  let r1 :=
    useProtectedRoute.run
      (useProtectedRoute.initializeApp session_guest false true) m in
  let r2 :=
    useProtectedRoute.run
      [useProtectedRoute.StoreChanged session_stored;
       useProtectedRoute.LocationChanged ["withdraw"] "/withdraw"] r1.1 in
  (length (r1.2 ++ r2.2) ≤ 1)%nat
  ∧ (useProtectedRoute.isReady r1.1 = false → r1.2 = [])
  ∧ (r1.2 ≠ [] → r2.2 = []).
Proof.
  intros m r1 r2.
  exact (one_shot_navigation session_guest ["withdraw"] "/withdraw"
           r1.1 r2.1 r1.2 r2.2
           (latch.run_steps _ m) (latch.run_steps _ r1.1)).
Defined.

(** The run of that witness: start-up redirects the guest to the welcome
    screen; the stored credentials that arrive afterwards would call for
    the login-passcode screen, but the latch is set. *)
Example latch_suppresses_second_redirect :
  let m := useProtectedRoute.mount session_guest ["withdraw"] "/withdraw" in
  let r1 :=
    useProtectedRoute.run
      (useProtectedRoute.initializeApp session_guest false true) m in
  let r2 :=
    useProtectedRoute.run
      [useProtectedRoute.StoreChanged session_stored;
       useProtectedRoute.LocationChanged ["withdraw"] "/withdraw"] r1.1 in
  r1.2 = [Replace "/"] ∧ r2.2 = []
  ∧ determineRoute session_stored at_stray false
    = Some "/(auth)/login-passcode".
Proof. cbn zeta. split_and!; reflexivity. Qed.

(** ** Worked scenarios *)

(** An onboarded user inside the tabs group is left alone. *)
Example completed_onboarding_stays :
  determineRoute
    {| user := Some (User.mk "u-3" "e@f.com" None None true None None
                       (Some OnboardingStatus.completed) (Some true)
                       None None);
       isAuthenticated := true; accessToken := Some "t";
       onboardingStatus := None; pendingVerificationEmail := None |}
    at_tabs false = None.
Proof. reflexivity. Qed.

(** Mid-onboarding and outside the tabs group: sent to the tabs root. *)
Example started_user_goes_to_tabs :
  determineRoute session_authenticated at_stray false = Some "/(tabs)".
Proof. reflexivity. Qed.

Example pending_email_goes_to_verify :
  determineRoute session_pending at_stray false
  = Some "/(auth)/verify-email".
Proof. reflexivity. Qed.

(** The user's own status wins over the store-level one. *)
Example user_status_preferred :
  handleAuthenticatedUser
    {| user := Some returning_user; isAuthenticated := true;
       accessToken := Some "t"; onboardingStatus := Some "completed";
       pendingVerificationEmail := None |}
    at_tabs = None
  ∧ js_or (user_onboardingStatus (Some returning_user)) (Some "completed")
    = Some "started".
Proof. split; reflexivity. Qed.

(** The tests are truthiness tests: an empty-string email or token counts
    as missing. *)
Example empty_email_is_guest :
  determineRoute
    {| user := None; isAuthenticated := false; accessToken := None;
       onboardingStatus := None; pendingVerificationEmail := Some "" |}
    at_stray false = Some "/".
Proof. reflexivity. Qed.

Example empty_token_falls_through :
  determineRoute
    {| user := Some returning_user; isAuthenticated := true;
       accessToken := Some ""; onboardingStatus := None;
       pendingVerificationEmail := None |}
    at_stray false = None.
Proof. reflexivity. Qed.

(** A full start-up: the token is found invalid, the store is reset, and
    the single redirect of this mount goes to the welcome screen. *)
Example invalid_token_start_up :
  (useProtectedRoute.run
     (useProtectedRoute.initializeApp session_authenticated true false)
     (useProtectedRoute.mount session_authenticated ["(tabs)"] "/")).2
  = [Replace "/"].
Proof. reflexivity. Qed.

(** * Further properties of the code *)

(** ** What the decision engine looks at *)

(** The onboarding test of [handleAuthenticatedUser] only ever returns
    what the following tabs test returns as well. *)
Lemma handleAuthenticatedUser_eq (a : AuthState) (c : RouteConfig) :
  handleAuthenticatedUser a c
  = if isInCriticalAuthFlow c || inTabsGroup c then None
    else Some "/(tabs)".
Proof.
  unfold handleAuthenticatedUser.
  destruct (isInCriticalAuthFlow c), (inTabsGroup c); cbn; try done.
  - by rewrite andb_true_r; case_match.
  - by rewrite andb_false_r.
Qed.

(** X1. The decision reads the session through five truth values only:
    two sessions that agree on [isAuthenticated], on whether a user is
    cached, on whether that user has a passcode, and on whether the token
    and the pending email are non-empty get the same decision.  The
    onboarding status, of the user or of the store, never changes it. *)
Theorem session_abstraction (a a' : AuthState) (c : RouteConfig) (w : bool) :
  isAuthenticated a = isAuthenticated a' →
  truthy (user a) = truthy (user a') →
  truthy (user_hasPasscode (user a)) = truthy (user_hasPasscode (user a')) →
  truthy (accessToken a) = truthy (accessToken a') →
  truthy (pendingVerificationEmail a)
    = truthy (pendingVerificationEmail a') →
  determineRoute a c w = determineRoute a' c w.
Proof.
  intros Hauth Huser Hpass Htok Hmail.
  unfold determineRoute, handleStoredCredentials.
  rewrite !handleAuthenticatedUser_eq.
  by rewrite Hauth, Huser, Hpass, Htok, Hmail.
Qed.

Lemma session_abstraction_witness :
  determineRoute session_authenticated at_tabs false
  = determineRoute
      {| user := Some (User.mk "u-9" "z@y.com" None None true None None
                         (Some OnboardingStatus.completed) (Some true)
                         None None);
         isAuthenticated := true; accessToken := Some "other-token";
         onboardingStatus := Some "completed";
         pendingVerificationEmail := None |} at_tabs false.
Proof.
  apply session_abstraction; try reflexivity.
Defined.

(** Which handler decides depends on the session alone, not on the
    location. *)
Lemma session_branch (a : AuthState) (w : bool) :
  (isAuthenticated a = true ∧ truthy (user a) = true
   ∧ truthy (accessToken a) = true
   ∧ ∀ c, determineRoute a c w = handleAuthenticatedUser a c)
  ∨ (isAuthenticated a = false ∧ truthy (user a) = true
     ∧ ∀ c, determineRoute a c w = handleStoredCredentials a c)
  ∨ (isAuthenticated a = false ∧ truthy (user a) = false
     ∧ truthy (pendingVerificationEmail a) = true
     ∧ ∀ c, determineRoute a c w = handleEmailVerification c)
  ∨ (isAuthenticated a = false ∧ truthy (user a) = false
     ∧ truthy (pendingVerificationEmail a) = false
     ∧ ∀ c, determineRoute a c w = handleGuestUser w c)
  ∨ (isAuthenticated a = true
     ∧ (truthy (user a) = false ∨ truthy (accessToken a) = false)
     ∧ ∀ c, determineRoute a c w = None).
Proof.
  destruct (isAuthenticated a) eqn:Hauth, (truthy (user a)) eqn:Huser.
  - destruct (truthy (accessToken a)) eqn:Htok.
    + left. split_and!; try done. intros c.
      by apply dispatch_authenticated.
    + do 4 right. split_and!; auto. intros c.
      apply dispatch_fallthrough; auto.
  - do 4 right. split_and!; auto. intros c.
    apply dispatch_fallthrough; auto.
  - right; left. split_and!; try done. intros c. by apply dispatch_stored.
  - destruct (truthy (pendingVerificationEmail a)) eqn:Hmail.
    + do 2 right; left. split_and!; try done. intros c.
      by apply dispatch_pending.
    + do 3 right; left. split_and!; try done. intros c.
      by apply dispatch_guest.
Qed.

(** X2. The tabs root is offered to fully authenticated sessions only,
    and to every such session that is neither in the tabs group nor on a
    critical screen. *)
Theorem tabs_redirect_iff (a : AuthState) (c : RouteConfig) (w : bool) :
  determineRoute a c w = Some "/(tabs)"
  ↔ isAuthenticated a = true ∧ is_Some (user a)
    ∧ truthy (accessToken a) = true
    ∧ inTabsGroup c = false ∧ isInCriticalAuthFlow c = false.
Proof.
  rewrite <- truthy_user_is_Some. split.
  - intros Hr.
    destruct (session_branch a w)
      as [(?&?&?&E)|[(?&?&E)|[(?&?&?&E)|[(?&?&?&E)|(?&?&E)]]]];
      rewrite E in Hr.
    + rewrite handleAuthenticatedUser_eq in Hr.
      destruct (isInCriticalAuthFlow c), (inTabsGroup c); by simplify_eq.
    + by apply handleStoredCredentials_range in Hr as [? | ?].
    + by apply handleEmailVerification_range in Hr.
    + by apply handleGuestUser_range in Hr.
    + done.
  - intros (Hauth & Huser & Htok & Htabs & Hcrit).
    rewrite dispatch_authenticated, handleAuthenticatedUser_eq by done.
    by rewrite Hcrit, Htabs.
Qed.

(** X3. A config built from a location is consistent: at most one of the
    two group flags and at most one of the five screen flags is set. *)
Theorem buildRouteConfig_exclusive (segs : list string) (path : string) :
  let cfg := buildRouteConfig segs path in
  inAuthGroup cfg && inTabsGroup cfg = false
  ∧ (Nat.b2n (isOnWelcomeScreen cfg) + Nat.b2n (isOnLoginPasscode cfg)
     + Nat.b2n (isOnVerifyEmail cfg) + Nat.b2n (isOnCreatePasscode cfg)
     + Nat.b2n (isOnConfirmPasscode cfg) ≤ 1)%nat.
Proof.
  cbn. unfold strict_eq. split.
  - destruct (segs !! 0) as [s|]; [|done].
    repeat case_bool_decide; by simplify_eq.
  - repeat case_bool_decide; simplify_eq; cbn; lia.
Qed.

(** X4. A guest under the tabs group is sent to the welcome screen from
    every path and for both values of the welcome flag. *)
Theorem guest_in_tabs_ejected
    (a : AuthState) (segs : list string) (path : string) (w : bool) :
  isAuthenticated a = false →
  user a = None →
  truthy (pendingVerificationEmail a) = false →
  segs !! 0 = Some "(tabs)" →
  determineRoute a (buildRouteConfig segs path) w = Some "/".
Proof.
  intros Hauth Huser Hmail Hsegs.
  rewrite dispatch_guest by (by rewrite ?Huser).
  unfold handleGuestUser; cbn. unfold strict_eq. rewrite Hsegs.
  rewrite bool_decide_eq_false_2 by done.
  rewrite (bool_decide_eq_true_2 (Some "(tabs)" = Some "(tabs)")) by done.
  rewrite andb_false_r. by destruct w, (bool_decide (path = "/")).
Qed.

Lemma guest_in_tabs_ejected_witness :
  determineRoute session_guest
    (buildRouteConfig ["(tabs)"; "card"] "/card") true = Some "/".
Proof. apply guest_in_tabs_ejected; reflexivity. Defined.

(** X5. No redirect loop: when the navigation host lands on the target
    and reports the segments of that target, the decision there is to
    stay. *)
Theorem redirect_settles
    (a : AuthState) (c : RouteConfig) (w : bool) (t : string)
    (segs : list string) :
  determineRoute a c w = Some t →
  (t = "/" → segs = []) →
  (t = "/(tabs)" → segs !! 0 = Some "(tabs)") →
  (t ∈ ["/(auth)/login-passcode"; "/(auth)/signin"; "/(auth)/verify-email"] →
   segs !! 0 = Some "(auth)") →
  determineRoute a (buildRouteConfig segs t) w = None.
Proof.
  intros Hr Hroot Htabs Hgroup.
  destruct (session_branch a w)
    as [(?&?&?&E)|[(?&?&E)|[(?&?&?&E)|[(?&?&?&E)|(?&?&E)]]]];
    rewrite E in Hr |- *; [| | | |done].
  - apply handleAuthenticatedUser_range in Hr as ->.
    rewrite handleAuthenticatedUser_eq. cbn. unfold strict_eq.
    by rewrite Htabs.
  - unfold handleStoredCredentials; cbn. unfold strict_eq.
    rewrite Hgroup; [done|].
    apply handleStoredCredentials_range in Hr as [-> | ->];
      repeat constructor.
  - by apply handleEmailVerification_range in Hr as ->.
  - apply handleGuestUser_range in Hr as ->.
    rewrite Hroot by done. by destruct w.
Qed.

Lemma redirect_settles_witness :
  determineRoute session_stored
    (buildRouteConfig ["(auth)"; "login-passcode"] "/(auth)/login-passcode")
    false = None.
Proof.
  apply (redirect_settles session_stored at_stray false
           "/(auth)/login-passcode" ["(auth)"; "login-passcode"]).
  - reflexivity.
  - discriminate.
  - discriminate.
  - reflexivity.
Defined.

(** ** The routing effect over whole runs *)

Lemma determineRoute_truthy (a : AuthState) (c : RouteConfig) (w : bool) t :
  determineRoute a c w = Some t → truthy t = true.
Proof.
  intros Ht%determineRoute_range. unfold destinations in Ht.
  repeat (apply elem_of_cons in Ht as [-> | Ht]; [done|]).
  by apply elem_of_nil in Ht.
Qed.

Module effect.
Import useProtectedRoute.

(** The effect issues exactly the engine's decision, or nothing. *)
Lemma routingEffect_fires (st st' : state) (k : command) :
  routingEffect st = (st', Some k) →
  ∃ t, k = Replace t ∧ targetRoute st = Some t ∧ targetRoute st' = Some t.
Proof.
  unfold routingEffect, targetRoute.
  destruct (negb (isReady st) || hasNavigatedRef st); [done|].
  destruct (determineRoute _ _ _) as [t|] eqn:Ht; [|done].
  rewrite (determineRoute_truthy _ _ _ _ Ht).
  intros [= <- <-]; cbn. eauto.
Qed.

(** When it issues nothing, there was nothing to issue, or it was held
    back by [isReady] or by the latch. *)
Lemma routingEffect_silent (st st' : state) :
  routingEffect st = (st', None) →
  st' = st
  ∧ (isReady st = false ∨ hasNavigatedRef st = true ∨ targetRoute st = None).
Proof.
  unfold routingEffect, targetRoute.
  destruct (isReady st), (hasNavigatedRef st); cbn;
    try (intros [= <-]; by auto).
  destruct (determineRoute _ _ _) as [t|] eqn:Ht.
  - by rewrite (determineRoute_truthy _ _ _ _ Ht).
  - intros [= <-]; auto.
Qed.

Lemma step_settled (st st' : state) (c : option command) :
  step st c st' →
  isReady st' = false ∨ hasNavigatedRef st' = true ∨ targetRoute st' = None.
Proof.
  intros [e s s' c' Heff]. destruct c' as [k|].
  - apply latch.routingEffect_inv in Heff as (_ & _ & Hcmd).
    destruct Hcmd as (_ & _ & ?); auto.
  - by apply routingEffect_silent in Heff as [-> ?].
Qed.

Lemma steps_settled (st st' : state) (cs : list command) :
  steps st cs st' →
  isReady st = false ∨ hasNavigatedRef st = true ∨ targetRoute st = None →
  isReady st' = false ∨ hasNavigatedRef st' = true ∨ targetRoute st' = None.
Proof.
  induction 1 as [st | st c st1 cs st2 Hstep _ IH]; [done|].
  intros _. apply IH. by eapply step_settled.
Qed.

End effect.

(** X6. Whatever the run and wherever it starts, every [replace] it
    issues goes to one of the five destinations of the engine. *)
Theorem commands_in_range
    (st st' : useProtectedRoute.state) (cs : list command) (t : string) :
  useProtectedRoute.steps st cs st' →
  Replace t ∈ cs →
  t ∈ destinations.
Proof.
  induction 1 as [st | st c st1 cs st2 Hstep _ IH].
  - by intros ?%elem_of_nil.
  - intros [Hin | Hin]%elem_of_app; [|by apply IH].
    destruct c as [k|]; cbn in Hin; [|by apply elem_of_nil in Hin].
    apply list_elem_of_singleton in Hin as <-.
    inversion Hstep as [e s s' c' Heff]; subst.
    apply effect.routingEffect_fires in Heff as (t' & [= <-] & Ht & _).
    by eapply determineRoute_range.
Qed.

Lemma commands_in_range_witness :
  "/" ∈ destinations.
Proof.
  apply (commands_in_range _ _ _ "/"
           (latch.run_steps
              (useProtectedRoute.initializeApp session_guest false true)
              (useProtectedRoute.mount session_guest ["withdraw"]
                 "/withdraw"))).
  vm_compute. constructor.
Defined.

(** X7. No missed redirect: after any run from a fresh mount, if the
    hook is ready and has not navigated, then no command was issued and
    the engine's decision for the current session and location is to
    stay. *)
Theorem no_missed_redirect
    (a : AuthState) (segs : list string) (path : string)
    (st : useProtectedRoute.state) (cs : list command) :
  useProtectedRoute.steps (useProtectedRoute.mount a segs path) cs st →
  useProtectedRoute.isReady st = true →
  useProtectedRoute.hasNavigatedRef st = false →
  cs = [] ∧ targetRoute st = None.
Proof.
  intros Hrun Hready Hlatch. split.
  - apply latch.steps_at_most_one in Hrun as [_ Hn].
    destruct cs; [done|]. rewrite Hn in Hlatch; done.
  - apply effect.steps_settled in Hrun as [? | [? | ?]];
      [congruence | congruence | done | by left].
Qed.

Lemma no_missed_redirect_witness :
  let r :=
    useProtectedRoute.run
      (useProtectedRoute.initializeApp session_guest true true)
      (useProtectedRoute.mount session_guest ["(auth)"; "signin"]
         "/(auth)/signin") in
  r.2 = [] ∧ targetRoute r.1 = None.
Proof.
  intros r.
  apply (no_missed_redirect session_guest ["(auth)"; "signin"]
           "/(auth)/signin" r.1 r.2 (latch.run_steps _ _));
    reflexivity.
Defined.

(** ** Start-up *)

(** What an undisturbed start-up does to a fresh mount. *)
Lemma run_initializeApp
    (a : AuthState) (segs : list string) (path : string)
    (welcomed isValid : bool) :
  let a' :=
    if isAuthenticated a && truthy (accessToken a) && negb isValid
    then useProtectedRoute.initialState else a in
  let target := determineRoute a' (buildRouteConfig segs path) welcomed in
  useProtectedRoute.run
    (useProtectedRoute.initializeApp a welcomed isValid)
    (useProtectedRoute.mount a segs path)
  = ({| useProtectedRoute.isReady := true;
        useProtectedRoute.hasNavigatedRef :=
          match target with Some _ => true | None => false end;
        useProtectedRoute.authState := a';
        useProtectedRoute.segments := segs;
        useProtectedRoute.pathname := path;
        useProtectedRoute.hasSeenWelcome := welcomed |},
     option_list (Replace <$> target)).
Proof.
  cbn zeta. unfold useProtectedRoute.initializeApp.
  destruct (isAuthenticated a && truthy (accessToken a)), isValid;
    cbn -[determineRoute buildRouteConfig];
    unfold useProtectedRoute.routingEffect;
    cbn -[determineRoute buildRouteConfig];
    destruct (determineRoute _ _ _) as [t|] eqn:Ht; try done;
    by rewrite (determineRoute_truthy _ _ _ _ Ht).
Qed.

(** X8. An undisturbed start-up from a fresh mount always ends ready,
    with the welcome flag that was read and with the session either kept
    or, when it claimed a token that failed validation, reset.  It issues
    exactly the engine's decision for that session, that flag and the
    location of the mount. *)
Theorem start_up
    (a : AuthState) (segs : list string) (path : string)
    (welcomed isValid : bool) :
  let a' :=
    if isAuthenticated a && truthy (accessToken a) && negb isValid
    then useProtectedRoute.initialState else a in
  let target := determineRoute a' (buildRouteConfig segs path) welcomed in
  useProtectedRoute.run
    (useProtectedRoute.initializeApp a welcomed isValid)
    (useProtectedRoute.mount a segs path)
  = ({| useProtectedRoute.isReady := true;
        useProtectedRoute.hasNavigatedRef :=
          match target with Some _ => true | None => false end;
        useProtectedRoute.authState := a';
        useProtectedRoute.segments := segs;
        useProtectedRoute.pathname := path;
        useProtectedRoute.hasSeenWelcome := welcomed |},
     option_list (Replace <$> target)).
Proof. apply run_initializeApp. Qed.

(** X9. A token that fails validation leaves no residue: whatever user,
    onboarding status or pending email the session carried, start-up ends
    on the logged-out session and issues the guest decision. *)
Theorem invalid_token_degrades_to_guest
    (a : AuthState) (segs : list string) (path : string) (welcomed : bool) :
  isAuthenticated a = true →
  truthy (accessToken a) = true →
  let r :=
    useProtectedRoute.run
      (useProtectedRoute.initializeApp a welcomed false)
      (useProtectedRoute.mount a segs path) in
  useProtectedRoute.authState r.1 = useProtectedRoute.initialState
  ∧ r.2 = option_list
            (Replace <$> handleGuestUser welcomed
                           (buildRouteConfig segs path)).
Proof.
  intros Hauth Htok; cbn zeta. rewrite run_initializeApp, Hauth, Htok.
  split; [done|]. by rewrite dispatch_guest.
Qed.

Lemma invalid_token_degrades_to_guest_witness :
  let r :=
    useProtectedRoute.run
      (useProtectedRoute.initializeApp session_authenticated true false)
      (useProtectedRoute.mount session_authenticated
         ["(tabs)"; "profile"] "/profile") in
  useProtectedRoute.authState r.1 = useProtectedRoute.initialState
  ∧ r.2 = option_list
            (Replace <$> handleGuestUser true
                           (buildRouteConfig ["(tabs)"; "profile"]
                              "/profile")).
Proof.
  apply (invalid_token_degrades_to_guest session_authenticated
           ["(tabs)"; "profile"] "/profile" true);
    reflexivity.
Defined.

(** ** The welcome flag in storage *)

(** Only a read that resolves to the exact string ['true'] counts as
    welcome seen. *)
Lemma checkWelcomeStatus_true_iff (read : outcome (option string)) :
  checkWelcomeStatus read = true ↔ read = Resolved (Some "true").
Proof.
  destruct read as [welcomed | reason]; cbn; [|done].
  unfold strict_eq. rewrite bool_decide_eq_true.
  split; [by intros -> | by intros [= ->]].
Qed.

(** X10. The welcome screen and the start-up check agree on the key and
    the value: once the screen's write went through, the check reads
    [true], whatever the store held and whatever is later written under
    other keys.  A failed write leaves the store as it was, and the
    screen is released in both cases. *)
Theorem welcome_flag_round_trip (store : AsyncStorage.t) :
  (∀ other value,
     other ≠ "hasSeenWelcome" →
     checkWelcomeStatus
       (Resolved
          (AsyncStorage.getItem "hasSeenWelcome"
             (AsyncStorage.setItem other value
                (WelcomeScreen.setWelcomeFlag true store).1))) = true)
  ∧ checkWelcomeStatus
      (Resolved
         (AsyncStorage.getItem "hasSeenWelcome"
            (WelcomeScreen.setWelcomeFlag true store).1)) = true
  ∧ (WelcomeScreen.setWelcomeFlag false store).1 = store
  ∧ (∀ writable, (WelcomeScreen.setWelcomeFlag writable store).2 = true).
Proof.
  unfold WelcomeScreen.setWelcomeFlag, AsyncStorage.getItem,
    AsyncStorage.setItem, AsyncStorage.t in *;
    cbn [fst snd checkWelcomeStatus]. unfold strict_eq.
  split_and!.
  - intros other value Hne.
    by rewrite lookup_insert_ne, lookup_insert_eq.
  - by rewrite lookup_insert_eq.
  - done.
  - by intros [].
Qed.

Lemma welcome_flag_round_trip_witness :
  checkWelcomeStatus
    (Resolved
       (AsyncStorage.getItem "hasSeenWelcome"
          (AsyncStorage.setItem "auth-storage" "{}"
             (WelcomeScreen.setWelcomeFlag true ∅).1))) = true.
Proof.
  apply (proj1 (welcome_flag_round_trip ∅) "auth-storage" "{}").
  discriminate.
Defined.

(** X11. Fail-safe start-up: when the flag cannot be read, was never
    written or holds anything but ['true'], a guest who is anywhere but
    on the welcome screen is sent there. *)
Theorem unread_flag_shows_welcome
    (a : AuthState) (segs : list string) (path : string)
    (read : outcome (option string)) (isValid : bool) :
  isAuthenticated a = false →
  user a = None →
  truthy (pendingVerificationEmail a) = false →
  read ≠ Resolved (Some "true") →
  path ≠ "/" →
  (useProtectedRoute.run
     (useProtectedRoute.initializeApp a (checkWelcomeStatus read) isValid)
     (useProtectedRoute.mount a segs path)).2
  = [Replace "/"].
Proof.
  intros Hauth Huser Hmail Hread Hpath.
  rewrite run_initializeApp, Hauth; cbn -[determineRoute buildRouteConfig].
  rewrite dispatch_guest by (by rewrite ?Huser).
  destruct (checkWelcomeStatus read) eqn:Hw.
  { by apply checkWelcomeStatus_true_iff in Hw. }
  unfold handleGuestUser; cbn.
  by rewrite bool_decide_eq_false_2.
Qed.

Lemma unread_flag_shows_welcome_witness :
  (useProtectedRoute.run
     (useProtectedRoute.initializeApp session_guest
        (checkWelcomeStatus (Rejected NotAnError)) true)
     (useProtectedRoute.mount session_guest ["(auth)"; "signin"]
        "/(auth)/signin")).2
  = [Replace "/"].
Proof.
  apply unread_flag_shows_welcome;
    first [ reflexivity | discriminate ].
Defined.

(** ** Chain utilities *)

Lemma prefix_iff (needle haystack : string) :
  String.prefix needle haystack = true ↔ ∃ after, haystack = needle +:+ after.
Proof.
  revert needle.
  induction haystack as [|ch' haystack IH]; intros [|ch needle]; cbn.
  - split; [intros _; by exists "" | done].
  - split; [done | by intros [? ?]].
  - split; [intros _; by eexists | done].
  - destruct (Ascii.ascii_dec ch ch') as [<- | Hne].
    + rewrite IH. split.
      * intros [after ->]. by exists after.
      * intros [after [= ->]]. by exists after.
    + split; [done | intros [after [= ? ?]]; done].
Qed.

Lemma includes_iff (haystack needle : string) :
  includes haystack needle = true
  ↔ ∃ before after, haystack = before +:+ needle +:+ after.
Proof.
  induction haystack as [|ch haystack IH]; cbn [includes];
    rewrite orb_true_iff, prefix_iff.
  - split.
    + intros [[after ->] | ?]; [by exists "", after | done].
    + intros ([|? ?] & after & H); [left; by exists after | done].
  - rewrite IH. split.
    + intros [[after ->] | (before & after & ->)].
      * by exists "", after.
      * by exists (String ch before), after.
    + intros ([|ch' before] & after & H).
      * left. by exists after.
      * right. injection H as -> ->. by exists before, after.
Qed.

(** X12. [isTestnetChain] is a case-sensitive substring test: a name is
    accepted exactly when one of the four markers occurs somewhere in
    it. *)
Theorem isTestnetChain_iff (chain : string) :
  isTestnetChain chain = true
  ↔ ∃ before marker after,
      marker ∈ ["SEPOLIA"; "DEVNET"; "AMOY"; "TESTNET"]
      ∧ chain = before +:+ marker +:+ after.
Proof.
  unfold isTestnetChain. rewrite !orb_true_iff, !includes_iff. split.
  - intros [[[H | H] | H] | H]; destruct H as (before & after & ->);
      eexists before, _, after; (split; [|done]); repeat constructor.
  - intros (before & marker & after & Hin & ->).
    repeat (apply elem_of_cons in Hin as [-> | Hin]);
      [ do 3 left | do 2 left; right | left; right | right | ];
      try (by exists before, after).
    by apply elem_of_nil in Hin.
Qed.

(** X13. On the chain names of the API types the test is exact: every
    testnet chain is accepted and every mainnet chain is refused. *)
Theorem isTestnetChain_classifies :
  (∀ chain, isTestnetChain (TestnetChain.literal chain) = true)
  ∧ (∀ chain, isTestnetChain (MainnetChain.literal chain) = false).
Proof. split; by intros []. Qed.

Lemma NETWORK_TO_TESTNET_MAP_lookup (id : string) (chain : TestnetChain.t) :
  NETWORK_TO_TESTNET_MAP !! id = Some chain
  ↔ (id, chain) ∈ [("solana", TestnetChain.SOL_DEVNET);
                    ("base", TestnetChain.BASE_SEPOLIA);
                    ("polygon", TestnetChain.MATIC_AMOY);
                    ("bnb", TestnetChain.ETH_SEPOLIA)].
Proof.
  unfold NETWORK_TO_TESTNET_MAP. symmetry. apply elem_of_list_to_map.
  apply (bool_decide_unpack _). by vm_compute.
Qed.

(** X14. [getTestnetChain] finds a chain for exactly four network ids,
    compared as they are written, and each chain it finds is a testnet;
    a missing or empty id gives [undefined]. *)
Theorem getTestnetChain_spec (networkId : option string) :
  (∀ chain,
     getTestnetChain networkId = Own chain
     ↔ ∃ id, networkId = Some id
         ∧ (id, chain) ∈ [("solana", TestnetChain.SOL_DEVNET);
                           ("base", TestnetChain.BASE_SEPOLIA);
                           ("polygon", TestnetChain.MATIC_AMOY);
                           ("bnb", TestnetChain.ETH_SEPOLIA)])
  ∧ (∀ chain,
       getTestnetChain networkId = Own chain →
       isTestnetChain (TestnetChain.literal chain) = true)
  ∧ (truthy networkId = false → getTestnetChain networkId = Undefined).
Proof.
  split_and!.
  - intros chain. unfold getTestnetChain, get.
    destruct networkId as [[|ch id]|]; cbn [truthy option_truthy
      string_truthy negb].
    + split; [done|]. intros (? & [= <-] & Hin).
      by apply NETWORK_TO_TESTNET_MAP_lookup in Hin.
    + destruct (NETWORK_TO_TESTNET_MAP !! String ch id) as [found|] eqn:Hl.
      * split.
        -- intros [= ->]. exists (String ch id).
           by rewrite <- NETWORK_TO_TESTNET_MAP_lookup.
        -- intros (? & [= <-] & Hin).
           apply NETWORK_TO_TESTNET_MAP_lookup in Hin. congruence.
      * split; [by case_bool_decide|].
        intros (? & [= <-] & Hin).
        apply NETWORK_TO_TESTNET_MAP_lookup in Hin. congruence.
    + split; [done | by intros (? & ? & _)].
  - intros chain _. by destruct chain.
  - unfold getTestnetChain. by intros ->.
Qed.

Lemma getTestnetChain_spec_witness :
  isTestnetChain (TestnetChain.literal TestnetChain.MATIC_AMOY) = true.
Proof.
  apply (proj1 (proj2 (getTestnetChain_spec (Some "polygon")))).
  reflexivity.
Defined.

(** ** The welcome carousel *)

Lemma iter_nextIndex {Slide} (slides : list Slide) (ticks i : nat) :
  (0 < length slides)%nat →
  (i < length slides)%nat →
  Nat.iter ticks (WelcomeScreen.nextIndex slides) i
  = ((i + ticks) `mod` length slides)%nat.
Proof.
  intros Hpos Hi. induction ticks as [|ticks IH].
  - cbn. rewrite Nat.add_0_r. by rewrite Nat.mod_small.
  - rewrite Nat.iter_succ, IH. unfold WelcomeScreen.nextIndex.
    rewrite Nat.Div0.add_mod_idemp_l. f_equal. lia.
Qed.

(** X15. The slide timer never leaves the list: from any index the next
    one is a valid position, and from a valid position one full round of
    ticks comes back to it, having moved one slide forward (wrapping at
    the end) at each tick. *)
Theorem nextIndex_cycles {Slide} (slides : list Slide) (currentIndex : nat) :
  (0 < length slides)%nat →
  (WelcomeScreen.nextIndex slides currentIndex < length slides)%nat
  ∧ ((currentIndex < length slides)%nat →
     WelcomeScreen.nextIndex slides currentIndex
     = (if bool_decide (currentIndex + 1 = length slides)%nat then 0
        else currentIndex + 1)%nat
     ∧ Nat.iter (length slides) (WelcomeScreen.nextIndex slides) currentIndex
       = currentIndex).
Proof.
  intros Hpos. split_and!.
  - unfold WelcomeScreen.nextIndex. apply Nat.mod_upper_bound. lia.
  - intros Hi. split.
    + unfold WelcomeScreen.nextIndex. case_bool_decide as Hlast.
      * rewrite Hlast. by apply Nat.Div0.mod_same.
      * apply Nat.mod_small. lia.
    + rewrite iter_nextIndex by done.
      rewrite <- Nat.Div0.add_mod_idemp_r, Nat.Div0.mod_same, Nat.add_0_r.
      by apply Nat.mod_small.
Qed.

Lemma nextIndex_cycles_witness :
  (WelcomeScreen.nextIndex ["1"; "2"; "3"; "4"] 3 < 4)%nat
  ∧ ((3 < 4)%nat →
     WelcomeScreen.nextIndex ["1"; "2"; "3"; "4"] 3 = 0%nat
     ∧ Nat.iter 4 (WelcomeScreen.nextIndex ["1"; "2"; "3"; "4"]) 3 = 3%nat).
Proof.
  apply (nextIndex_cycles ["1"; "2"; "3"; "4"] 3). cbn. lia.
Defined.

(** ** The auth store as the router sees it *)

(** X16. The router's view is persisted in full: two store states that
    write the same data to storage get the same routing decision
    everywhere, so a restart changes no decision. *)
Theorem routing_survives_restart
    (s1 s2 : AuthStore.state) (c : RouteConfig) (w : bool) :
  AuthStore.partialize s1 = AuthStore.partialize s2 →
  determineRoute (snapshot s1) c w = determineRoute (snapshot s2) c w.
Proof.
  intros Hp. f_equal. destruct s1, s2.
  unfold AuthStore.partialize, snapshot in *; cbn in *.
  injection Hp; intros; by subst.
Qed.

Lemma routing_survives_restart_witness :
  determineRoute
    (snapshot (AuthStore.setError (Some "Network down")
                 (AuthStore.set_isLoading true AuthStore.initialState)))
    at_stray false
  = determineRoute (snapshot AuthStore.initialState) at_stray false.
Proof. apply routing_survives_restart. reflexivity. Defined.

(** X17. [logout] always resolves and, like [reset], leaves nothing
    behind: apart from the error of a throwing service call the store is
    back to its initial state, and the router handles the session as a
    guest. *)
Theorem logout_clears
    (call : AuthStore.invocation unit) (s : AuthStore.state) :
  (AuthStore.logout call s).2 = Resolved ()
  ∧ AuthStore.set_error None (AuthStore.logout call s).1
    = AuthStore.initialState
  ∧ snapshot (AuthStore.logout call s).1 = snapshot (AuthStore.reset s)
  ∧ snapshot (AuthStore.reset s) = useProtectedRoute.initialState
  ∧ (∀ c w,
       determineRoute (snapshot (AuthStore.logout call s).1) c w
       = handleGuestUser w c).
Proof. by destruct call. Qed.



(** X19. A failed [login] or [register] rejects with the error it got
    and touches nothing that is persisted: only [isLoading] and [error]
    change, so the router's view is the one from before. *)
Theorem failed_attempt_keeps_session
    (e : thrown) (email : string) (s : AuthStore.state) :
  let l := AuthStore.login (Rejected e) s in
  let r := AuthStore.register email (Rejected e) s in
  l.2 = Rejected e ∧ r.2 = Rejected e
  ∧ AuthStore.partialize l.1 = AuthStore.partialize s
  ∧ AuthStore.partialize r.1 = AuthStore.partialize s
  ∧ snapshot l.1 = snapshot s ∧ snapshot r.1 = snapshot s
  ∧ AuthStore.isLoading l.1 = false ∧ AuthStore.isLoading r.1 = false
  ∧ AuthStore.error l.1 = Some (AuthStore.message_or e "Login failed")
  ∧ AuthStore.error r.1
    = Some (AuthStore.message_or e "Registration failed").
Proof. done. Qed.

(** X20. [setUser] and [setTokens] each raise [isAuthenticated] on their
    own.  After only one of them the session is one the engine never
    redirects; after both, in either order, and with a non-empty token,
    it is fully authenticated. *)
Theorem half_authenticated_stays
    (u : User.t) (access refresh : string) (s : AuthStore.state)
    (c : RouteConfig) (w : bool) :
  (AuthStore.user s = None →
   determineRoute (snapshot (AuthStore.setTokens access refresh s)) c w
   = None)
  ∧ (truthy (AuthStore.accessToken s) = false →
     determineRoute (snapshot (AuthStore.setUser u s)) c w = None)
  ∧ AuthStore.setUser u (AuthStore.setTokens access refresh s)
    = AuthStore.setTokens access refresh (AuthStore.setUser u s)
  ∧ (access ≠ "" →
     determineRoute
       (snapshot (AuthStore.setUser u
                    (AuthStore.setTokens access refresh s))) c w
     = if isInCriticalAuthFlow c || inTabsGroup c then None
       else Some "/(tabs)").
Proof.
  split_and!.
  - intros Hu. apply dispatch_fallthrough; cbn; [done|]. left.
    by rewrite Hu.
  - intros Ht. apply dispatch_fallthrough; cbn; auto.
  - done.
  - intros Ha. rewrite dispatch_authenticated; cbn; try done.
    + apply handleAuthenticatedUser_eq.
    + by destruct access.
Qed.

Lemma half_authenticated_stays_witness :
  determineRoute
    (snapshot (AuthStore.setTokens "abc" "def" AuthStore.initialState))
    at_stray false = None.
Proof.
  apply (proj1 (half_authenticated_stays returning_user "abc" "def"
                  AuthStore.initialState at_stray false)).
  reflexivity.
Defined.

(** X21. A successful [login] with a non-empty access token makes the
    session fully authenticated: the router sends it to the tabs root
    from anywhere outside the tabs group and the critical screens.  The
    status and passcode flag kept beside the user are the user's own, so
    the two onboarding statuses cannot disagree at this point. *)
Theorem login_success
    (response : AuthStore.LoginResponse) (s : AuthStore.state)
    (c : RouteConfig) (w : bool) :
  AuthStore.login_accessToken response ≠ "" →
  let r := AuthStore.login (Resolved response) s in
  r.2 = Resolved ()
  ∧ determineRoute (snapshot r.1) c w
    = (if isInCriticalAuthFlow c || inTabsGroup c then None
       else Some "/(tabs)")
  ∧ AuthStore.onboardingStatus r.1
    = user_onboardingStatus (AuthStore.user r.1)
  ∧ AuthStore.hasPasscode r.1
    = truthy (user_hasPasscode (AuthStore.user r.1))
  ∧ AuthStore.isLoading r.1 = false ∧ AuthStore.error r.1 = None.
Proof.
  intros Htok. cbn -[determineRoute]. split_and!; try done.
  - rewrite dispatch_authenticated; cbn; try done.
    + apply handleAuthenticatedUser_eq.
    + by destruct (AuthStore.login_accessToken response).
  - unfold js_or, user_onboardingStatus; cbn.
    destruct (User.onboardingStatus _) as [st|]; cbn; [|done].
    by rewrite literal_truthy.
Qed.

Lemma login_success_witness :
  determineRoute
    (snapshot (AuthStore.login
                 (Resolved {| AuthStore.login_user := returning_user;
                              AuthStore.login_accessToken := "abc";
                              AuthStore.login_refreshToken := "def" |})
                 AuthStore.initialState).1) at_stray false
  = Some "/(tabs)".
Proof.
  refine (proj1 (proj2 (login_success
            {| AuthStore.login_user := returning_user;
               AuthStore.login_accessToken := "abc";
               AuthStore.login_refreshToken := "def" |}
            AuthStore.initialState at_stray false _))).
  discriminate.
Defined.

(** X22. [refreshSession] without a refresh token rejects at once and
    changes nothing.  With one, a successful refresh replaces the two
    tokens and leaves the user and [isAuthenticated] alone; a failed one
    rejects with the error it got and ends logged out. *)
Theorem refreshSession_spec
    (response : outcome AuthStore.RefreshResponse)
    (logoutCall : AuthStore.invocation unit) (s : AuthStore.state) :
  let r := AuthStore.refreshSession response logoutCall s in
  (truthy (AuthStore.refreshToken s) = false →
   r = (s, Rejected (ErrorObject "No refresh token available")))
  ∧ (truthy (AuthStore.refreshToken s) = true →
     match response with
     | Resolved fresh =>
         r.2 = Resolved ()
         ∧ AuthStore.accessToken r.1 = Some (AuthStore.token fresh)
         ∧ AuthStore.refreshToken r.1
           = Some (AuthStore.refresh_refreshToken fresh)
         ∧ AuthStore.user r.1 = AuthStore.user s
         ∧ AuthStore.isAuthenticated r.1 = AuthStore.isAuthenticated s
     | Rejected e =>
         r.2 = Rejected e
         ∧ snapshot r.1 = useProtectedRoute.initialState
         ∧ AuthStore.refreshToken r.1 = None
     end).
Proof.
  cbn zeta. unfold AuthStore.refreshSession. split.
  - by intros ->.
  - intros ->. cbn. destruct response as [fresh | e]; [done|].
    by destruct logoutCall.
Qed.

Lemma refreshSession_spec_witness :
  AuthStore.refreshSession (Rejected NotAnError)
    (AuthStore.Promise (Resolved ())) AuthStore.initialState
  = (AuthStore.initialState,
     Rejected (ErrorObject "No refresh token available")).
Proof.
  apply (proj1 (refreshSession_spec (Rejected NotAnError)
                  (AuthStore.Promise (Resolved ())) AuthStore.initialState)).
  reflexivity.
Defined.

(** X23. Logging out while under the tabs group: a ready mount that has
    not navigated yet replaces the location with the welcome screen as
    soon as the store change arrives; a mount that has already used its
    one redirect stays where it is. *)
Theorem logout_in_tabs
    (st : useProtectedRoute.state) (call : AuthStore.invocation unit)
    (s : AuthStore.state) :
  useProtectedRoute.isReady st = true →
  useProtectedRoute.segments st !! 0 = Some "(tabs)" →
  (useProtectedRoute.run
     [useProtectedRoute.StoreChanged (snapshot (AuthStore.logout call s).1)]
     st).2
  = if useProtectedRoute.hasNavigatedRef st then [] else [Replace "/"].
Proof.
  intros Hready Hsegs. cbn -[determineRoute buildRouteConfig].
  unfold useProtectedRoute.routingEffect;
    cbn -[determineRoute buildRouteConfig]. rewrite Hready.
  destruct (useProtectedRoute.hasNavigatedRef st); [done|].
  cbn -[determineRoute buildRouteConfig].
  destruct (session_branch (snapshot (AuthStore.logout call s).1)
              (useProtectedRoute.hasSeenWelcome st))
    as [(E&_)|[(_&E&_)|[(_&_&E&_)|[(_&_&_&E)|(E&_)]]]];
    try (by destruct call).
  rewrite E. unfold handleGuestUser; cbn. unfold strict_eq.
  rewrite Hsegs.
  rewrite bool_decide_eq_false_2 by done.
  rewrite (bool_decide_eq_true_2 (Some "(tabs)" = Some "(tabs)")) by done.
  rewrite andb_false_r.
  by destruct (useProtectedRoute.hasSeenWelcome st),
    (bool_decide (useProtectedRoute.pathname st = "/")).
Qed.

Lemma logout_in_tabs_witness :
  (useProtectedRoute.run
     [useProtectedRoute.StoreChanged
        (snapshot (AuthStore.logout (AuthStore.Promise (Resolved ()))
                     AuthStore.initialState).1)]
     {| useProtectedRoute.isReady := true;
        useProtectedRoute.hasNavigatedRef := true;
        useProtectedRoute.authState := session_authenticated;
        useProtectedRoute.segments := ["(tabs)"; "profile"];
        useProtectedRoute.pathname := "/profile";
        useProtectedRoute.hasSeenWelcome := true |}).2
  = [].
Proof.
  apply (logout_in_tabs
           {| useProtectedRoute.isReady := true;
              useProtectedRoute.hasNavigatedRef := true;
              useProtectedRoute.authState := session_authenticated;
              useProtectedRoute.segments := ["(tabs)"; "profile"];
              useProtectedRoute.pathname := "/profile";
              useProtectedRoute.hasSeenWelcome := true |});
    reflexivity.
Defined.
